(** * Sports Poem chatbot: session metrics and transcript

    A shallow embedding of [Sports_team_Streamlit/sports_chatbot.py]:
    the whitespace token estimate, the per-token cost arithmetic on
    binary64 floats, the Streamlit session store, the turn processing
    functions and the panels that [main] renders, followed by the
    properties of the session metrics and the transcript. *)

From Stdlib Require Import List Arith ZArith NArith Bool String Ascii Lia.
From Stdlib Require Import DecimalString.
From Stdlib Require Import Floats.PrimFloat.
From Stdlib Require Import Numbers.Cyclic.Int63.Uint63.
Import ListNotations.

Set Warnings "-inexact-float,-register-all".
Open Scope list_scope.

(** ** Text

    A Python [str] is a sequence of Unicode code points. *)

Definition char := N.
Definition str := list char.

(** String literals of the source.  The literals the program uses are
    ASCII, so each character is its own code point. *)
Definition lit (s : string) : str :=
  map N_of_ascii (list_ascii_of_string s).

Arguments lit : simpl never.

Definition newline : char := 10%N.

(** [str(n)] for a non-negative [int]: its decimal digits. *)
Definition str_of_nat (n : nat) : str :=
  lit (NilEmpty.string_of_uint (Nat.to_uint n)).

Arguments str_of_nat : simpl never.

(** [str.isspace] on one code point: the characters CPython treats as
    whitespace, which are the separators of [str.split()]. *)
Definition isspace (c : char) : bool :=
  ((0x09 <=? c) && (c <=? 0x0D) ||
   (0x1C <=? c) && (c <=? 0x20) ||
   (c =? 0x85) || (c =? 0xA0) || (c =? 0x1680) ||
   (0x2000 <=? c) && (c <=? 0x200A) ||
   (c =? 0x2028) || (c =? 0x2029) || (c =? 0x202F) ||
   (c =? 0x205F) || (c =? 0x3000))%N.

(** [text.split()] with no separator: runs of whitespace separate the
    words, and no empty word is produced.  [word] is the run of
    non-whitespace characters read so far. *)
Fixpoint split_from (word : str) (text : str) : list str :=
  match text with
  | [] => match word with [] => [] | _ => [word] end
  | c :: rest =>
      if isspace c
      then match word with
           | [] => split_from [] rest
           | _ => word :: split_from [] rest
           end
      else split_from (word ++ [c]) rest
  end.

Definition split (text : str) : list str := split_from [] text.

(** [count_tokens]: "Rough approximation of token count". *)
Definition count_tokens (text : str) : nat := List.length (split text).

(** The number of whitespace-separated tokens, counted directly on the
    text: a token starts at every non-whitespace character that is the
    first character of the text or follows a whitespace character. *)
Fixpoint token_starts (after_space : bool) (text : str) : nat :=
  match text with
  | [] => 0
  | c :: rest =>
      (if after_space && negb (isspace c) then 1 else 0)
      + token_starts (isspace c) rest
  end.

Definition whitespace_separated_tokens (text : str) : nat :=
  token_starts true text.

(** ** Cost arithmetic

    Python's [float] is IEEE 754 binary64, as is [PrimFloat.float];
    literals round to the nearest binary64 value in both. *)

Definition COST_PER_INPUT_TOKEN : float := 0.00025%float.
Definition COST_PER_OUTPUT_TOKEN : float := 0.00025%float.

(** The conversion of an [int] operand in [int * float].  Token counts
    are list lengths, which stay below [2^63]. *)
Definition float_of_nat (n : nat) : float :=
  PrimFloat.of_uint63 (Uint63.of_Z (Z.of_nat n)).

(** ** Data exchanged with the agent service *)

(** A nested, service-defined value (one trace record). *)
Inductive json : Type :=
| JNull
| JBool (b : bool)
| JNumber (x : float)
| JString (s : str)
| JArray (items : list json)
| JObject (members : list (str * json)).

(** A retrieved reference as the service sends it: nested dicts in
    which the keys ['location'], ['s3Location'] and ['uri'] may be
    missing (a reference to a web page or to another store has no S3
    location). *)
Record s3_location := { uri : option str }.

Record ref_location := { s3Location : option s3_location }.

Record reference := { location : option ref_location }.

(** [ref['location']['s3Location']['uri']]: the value, or [None] when
    one of the three subscripts raises [KeyError]. *)
Definition s3_uri (ref : reference) : option str :=
  match location ref with
  | Some loc =>
      match s3Location loc with
      | Some s3 => uri s3
      | None => None
      end
  | None => None
  end.

Record citation := { retrievedReferences : list reference }.

(** [chunk_text] is [chunk["bytes"].decode()]; [attribution] is
    [chunk["attribution"]["citations"]] when the key is present. *)
Record chunk := {
  chunk_text : str;
  attribution : option (list citation)
}.

Inductive trace_type :=
| preProcessingTrace
| orchestrationTrace
| postProcessingTrace.

Definition trace_type_eqb (a b : trace_type) : bool :=
  match a, b with
  | preProcessingTrace, preProcessingTrace => true
  | orchestrationTrace, orchestrationTrace => true
  | postProcessingTrace, postProcessingTrace => true
  | _, _ => false
  end.

(** [event["trace"]["trace"]]: which of the three phases it carries. *)
Definition trace_event := trace_type -> option json.

Record event := {
  ev_chunk : option chunk;
  ev_trace : option trace_event
}.

(** The [trace] dict that [invoke_agent] builds: phase name to list of
    records, in order of first insertion. *)
Definition trace_dict := list (trace_type * list json).

(** [if t not in trace: trace[t] = []] then [trace[t].append(x)]. *)
Fixpoint trace_append (t : trace_type) (x : json) (trace : trace_dict)
  : trace_dict :=
  match trace with
  | [] => [(t, [x])]
  | (t', xs) :: rest =>
      if trace_type_eqb t t'
      then (t', xs ++ [x]) :: rest
      else (t', xs) :: trace_append t x rest
  end.

Module Response.
(** The dict that [invoke_agent] returns. *)
Record t := mk {
  output_text : str;
  citations : list citation;
  trace : trace_dict;
  execution_time : float
}.
End Response.

(** What happens during one [invoke_agent].  [Failed]: the call, or
    the reading of the completion stream, raises [ClientError];
    [str(e)] is the message.  [Completed]: the stream delivers its
    events.  [NoClient]: building the client raises (no region, no
    such service, ...), before any request.  [Aborted]: the call or
    the reading of the stream raises an exception that is not a
    [ClientError] (a connection error, a chunk that does not decode).
    The exceptions of the last two are not caught by the program;
    [exception] is their class name. *)
Inductive agent_reply :=
| Failed (message : str)
| Completed (events : list event)
| NoClient (exception : str)
| Aborted (exception : str).

(** One call as the program sees it: the two [time.time()] readings
    around it and the reply. *)
Record agent_run := {
  start_clock : float;
  reply : agent_reply;
  end_clock : float
}.

Record request := {
  agentId : str;
  agentAliasId : str;
  enableTrace : bool;
  sessionId : str;
  inputText : str
}.

Definition AGENT_ID : str := lit "A8BOBK3KW2".
Definition AGENT_ALIAS_ID : str := lit "ULQOQRBUIW".

(** ** Transcript and session store *)

Inductive role := user | assistant.

Module Metrics.
(** [message["metrics"]]; the last two keys exist on assistant
    messages only. *)
Record t := mk {
  tokens : nat;
  cost : float;
  timestamp : str;
  execution_time : option float;
  trace : option trace_dict
}.
End Metrics.

Module Message.
Record t := mk {
  role : role;
  content : str;
  metrics : Metrics.t
}.
End Message.

(** The variables [init_state] puts in [st.session_state].  The key
    [initialized] is set with them and removed with them by [clear()],
    so it is the presence of this record in the store. *)
Record session := {
  session_id : str;
  messages : list Message.t;
  citations : list citation;
  trace : trace_dict;
  total_cost : float;
  total_input_tokens : nat;
  total_output_tokens : nat;
  session_start_time : float;
  total_prompt_time : float
}.

Definition set_messages (v : list Message.t) (s : session) : session :=
  {| session_id := session_id s; messages := v;
     citations := citations s; trace := trace s;
     total_cost := total_cost s;
     total_input_tokens := total_input_tokens s;
     total_output_tokens := total_output_tokens s;
     session_start_time := session_start_time s;
     total_prompt_time := total_prompt_time s |}.

Definition set_citations (v : list citation) (s : session) : session :=
  {| session_id := session_id s; messages := messages s;
     citations := v; trace := trace s;
     total_cost := total_cost s;
     total_input_tokens := total_input_tokens s;
     total_output_tokens := total_output_tokens s;
     session_start_time := session_start_time s;
     total_prompt_time := total_prompt_time s |}.

Definition set_trace (v : trace_dict) (s : session) : session :=
  {| session_id := session_id s; messages := messages s;
     citations := citations s; trace := v;
     total_cost := total_cost s;
     total_input_tokens := total_input_tokens s;
     total_output_tokens := total_output_tokens s;
     session_start_time := session_start_time s;
     total_prompt_time := total_prompt_time s |}.

Definition set_total_cost (v : float) (s : session) : session :=
  {| session_id := session_id s; messages := messages s;
     citations := citations s; trace := trace s;
     total_cost := v;
     total_input_tokens := total_input_tokens s;
     total_output_tokens := total_output_tokens s;
     session_start_time := session_start_time s;
     total_prompt_time := total_prompt_time s |}.

Definition set_total_input_tokens (v : nat) (s : session) : session :=
  {| session_id := session_id s; messages := messages s;
     citations := citations s; trace := trace s;
     total_cost := total_cost s;
     total_input_tokens := v;
     total_output_tokens := total_output_tokens s;
     session_start_time := session_start_time s;
     total_prompt_time := total_prompt_time s |}.

Definition set_total_output_tokens (v : nat) (s : session) : session :=
  {| session_id := session_id s; messages := messages s;
     citations := citations s; trace := trace s;
     total_cost := total_cost s;
     total_input_tokens := total_input_tokens s;
     total_output_tokens := v;
     session_start_time := session_start_time s;
     total_prompt_time := total_prompt_time s |}.

Definition set_total_prompt_time (v : float) (s : session) : session :=
  {| session_id := session_id s; messages := messages s;
     citations := citations s; trace := trace s;
     total_cost := total_cost s;
     total_input_tokens := total_input_tokens s;
     total_output_tokens := total_output_tokens s;
     session_start_time := session_start_time s;
     total_prompt_time := v |}.

(** ** What the page shows *)

(** A displayed value.  Number formatting is the library's: a float
    slot keeps the number and names the format applied to it. *)
Inductive piece :=
| Int (n : nat)                      (* an [int], shown as it is *)
| Fixed (digits : nat) (x : float)   (* [f"{x:.4f}"], [f"{x:.2f}"] *)
| HMS (seconds : float)              (* [format_time(seconds)] *)
| Lit (s : str).

Inductive ui_action :=
| Css
| Container
| Columns (count : nat)
| Column (index : nat)
| Title (text : str)
| Metric (label : str) (value : list piece)
| Button (label : str)
| ChatMessage (r : role)
| Markdown (text : str)
| Write (text : str)
| Empty
| PlaceholderMarkdown (text : str)
| ChatInput (label : str)
| Error (text : str)
| Expander (label : str)
| Json (value : trace_dict).

(** ** The program's state and its effects

    [session_state] is [st.session_state] ([None]: no key is set),
    [screen] the elements written to the page so far, [calls] the
    requests handed to the agent client. *)
Record world := {
  session_state : option session;
  screen : list ui_action;
  calls : list request
}.

Inductive exn :=
| AttributeError    (* an attribute of an empty [st.session_state] *)
| KeyError          (* a key a dict does not have *)
| RerunException    (* raised by [st.rerun()] to restart the script *)
| Uncaught (exception : str).
                    (* an exception of the agent client that is not
                       a [ClientError] *)

Inductive result (A : Type) :=
| Ok (a : A) (w : world)
| Raise (e : exn) (w : world).
Arguments Ok {A} a w.
Arguments Raise {A} e w.

Definition M (A : Type) := world -> result A.

Definition ret {A} (a : A) : M A := fun w => Ok a w.

Definition bind {A B} (c : M A) (k : A -> M B) : M B :=
  fun w => match c w with
           | Ok a w' => k a w'
           | Raise e w' => Raise e w'
           end.

Definition raise {A} (e : exn) : M A := fun w => Raise e w.

Declare Scope m_scope.
Delimit Scope m_scope with M.
Notation "x <- c ;; k" := (bind c (fun x => k))
  (at level 61, c at next level, right associativity) : m_scope.
Notation "c ;; k" := (bind c (fun _ => k))
  (at level 61, right associativity) : m_scope.
Open Scope m_scope.

(** The world an action leaves behind, however it ends. *)
Definition final {A} (r : result A) : world :=
  match r with Ok _ w => w | Raise _ w => w end.

(** Reading an attribute of [st.session_state]. *)
Definition read {A} (field : session -> A) : M A :=
  fun w => match session_state w with
           | Some s => Ok (field s) w
           | None => Raise AttributeError w
           end.

(** Updating the session variables in place ([x += v], [x = v] after a
    read, [messages.extend]). *)
Definition modify (f : session -> session) : M unit :=
  fun w => match session_state w with
           | Some s => Ok tt {| session_state := Some (f s);
                                screen := screen w; calls := calls w |}
           | None => Raise AttributeError w
           end.

Definition emit (a : ui_action) : M unit :=
  fun w => Ok tt {| session_state := session_state w;
                    screen := screen w ++ [a]; calls := calls w |}.

Definition call_agent (r : request) : M unit :=
  fun w => Ok tt {| session_state := session_state w;
                    screen := screen w; calls := calls w ++ [r] |}.

(** [d[key]]: the value, or [KeyError] when the key is missing. *)
Definition subscript {A} (v : option A) : M A :=
  match v with
  | Some a => ret a
  | None => raise KeyError
  end.

(** ** The program *)

(** The variables as [init_state] sets them. *)
Definition fresh_session (uuid4 : str) (now : float) : session :=
  {| session_id := uuid4;
     messages := [];
     citations := [];
     trace := [];
     total_cost := 0%float;
     total_input_tokens := 0;
     total_output_tokens := 0;
     session_start_time := now;
     total_prompt_time := 0%float |}.

(** [init_state]: "Initialize session state variables".  [uuid4] is
    the value of [str(uuid.uuid4())] and [now] that of [time.time()],
    were they evaluated. *)
Definition init_state (uuid4 : str) (now : float) : M unit :=
  fun w =>
    match session_state w with
    | None =>
        Ok tt {| session_state := Some (fresh_session uuid4 now);
                 screen := screen w; calls := calls w |}
    | Some _ => Ok tt w
    end.

(** [st.session_state.clear()]. *)
Definition clear : M unit :=
  fun w => Ok tt {| session_state := None;
                    screen := screen w; calls := calls w |}.

(** The body of [for event in response.get("completion")], on the
    three locals [output_text], [citations], [trace]. *)
Definition absorb_event (acc : str * list citation * trace_dict)
  (ev : event) : str * list citation * trace_dict :=
  let '(output_text, cits, tr) := acc in
  let '(output_text, cits) :=
    match ev_chunk ev with
    | Some ch =>
        (output_text ++ chunk_text ch,
         match attribution ch with
         | Some cs => cits ++ cs
         | None => cits
         end)
    | None => (output_text, cits)
    end in
  let tr :=
    match ev_trace ev with
    | Some parts =>
        fold_left
          (fun tr t =>
             match parts t with
             | Some record => trace_append t record tr
             | None => tr
             end)
          [preProcessingTrace; orchestrationTrace; postProcessingTrace]
          tr
    | None => tr
    end in
  (output_text, cits, tr).

(** The locals [output_text], [citations], [trace] once the completion
    stream has been read. *)
Definition read_completion (events : list event)
  : str * list citation * trace_dict :=
  fold_left absorb_event events ([], [], []).

(** [boto3.session.Session().client(...)]: the client, unless
    building it raises. *)
Definition build_client (run : agent_run) : M unit :=
  match reply run with
  | NoClient exception => raise (Uncaught exception)
  | _ => ret tt
  end.

(** [invoke_agent]: "Invoke Bedrock agent and return response".  A
    [ClientError] is reported with [st.error] and gives [None]; the
    [except] clause catches nothing else. *)
Definition invoke_agent (run : agent_run) (prompt : str)
  : M (option Response.t) :=
  let start_time := start_clock run in
  build_client run ;;
  sid <- read session_id ;;
  call_agent {| agentId := AGENT_ID;
                agentAliasId := AGENT_ALIAS_ID;
                enableTrace := true;
                sessionId := sid;
                inputText := prompt |} ;;
  match reply run with
  | Completed events =>
      let '(output_text, cits, tr) := read_completion events in
      let execution_time := (end_clock run - start_time)%float in
      modify (fun s =>
        set_total_prompt_time
          (total_prompt_time s + execution_time)%float s) ;;
      ret (Some (Response.mk output_text cits tr execution_time))
  | Failed message =>
      emit (Error (lit "Error invoking agent: " ++ message)) ;;
      ret None
  | NoClient exception | Aborted exception =>
      raise (Uncaught exception)
  end.

(** [enumerate(items, start)]. *)
Fixpoint enumerate {A} (start : nat) (items : list A) : list (nat * A) :=
  match items with
  | [] => []
  | x :: rest => (start, x) :: enumerate (S start) rest
  end.

(** The sources text built under [if response["citations"]:], with
    its two nested loops; [None] when the subscripts of a reference
    raise [KeyError], which ends the loops. *)
Definition citation_text (cits : list citation) : option str :=
  fold_left
    (fun text '(idx, cit) =>
       fold_left
         (fun text ref =>
            match text, s3_uri ref with
            | Some text, Some ref_uri =>
                Some (text ++ newline :: str_of_nat idx ++ lit ". "
                           ++ ref_uri)
            | _, _ => None
            end)
         (retrievedReferences cit) text)
    (enumerate 1 cits)
    (Some (newline :: newline :: lit "**Sources:**")).

(** [output_text] after the block "Add citations if present". *)
Definition with_citations (response : Response.t) : option str :=
  match Response.citations response with
  | [] => Some (Response.output_text response)
  | _ :: _ =>
      option_map (app (Response.output_text response))
                 (citation_text (Response.citations response))
  end.

(** The two [datetime.now().strftime("%H:%M:%S")] values read while
    the messages are stored. *)
Record timestamps := {
  user_timestamp : str;
  assistant_timestamp : str
}.

(** [store_messages]: "Store messages and metrics in session state". *)
Definition store_messages (ts : timestamps) (prompt output_text : str)
  (input_tokens output_tokens : nat) (input_cost output_cost : float)
  (response : Response.t) : M unit :=
  modify (fun s =>
    set_messages
      (messages s ++
       [Message.mk user prompt
          (Metrics.mk input_tokens input_cost (user_timestamp ts)
             None None);
        Message.mk assistant output_text
          (Metrics.mk output_tokens output_cost (assistant_timestamp ts)
             (Some (Response.execution_time response))
             (Some (Response.trace response)))]) s) ;;
  modify (set_citations (Response.citations response)) ;;
  modify (set_trace (Response.trace response)).

(** [process_agent_response]: "Process and display agent response". *)
Definition process_agent_response (ts : timestamps)
  (response : Response.t) (prompt : str) (input_tokens : nat)
  (input_cost : float) : M unit :=
  let output_text := Response.output_text response in
  let output_tokens := count_tokens output_text in
  let output_cost :=
    (float_of_nat output_tokens * COST_PER_OUTPUT_TOKEN)%float in
  modify (fun s =>
    set_total_output_tokens (total_output_tokens s + output_tokens) s) ;;
  modify (fun s =>
    set_total_cost (total_cost s + output_cost)%float s) ;;
  output_text <- subscript (with_citations response) ;;
  emit (PlaceholderMarkdown output_text) ;;
  store_messages ts prompt output_text input_tokens output_tokens
    input_cost output_cost response.

(** What one exchange reads from outside the program. *)
Record turn_env := {
  agent : agent_run;
  stamps : timestamps
}.

(** [process_user_input]: "Process user input and generate response".
    The response dict is never empty, so [if response:] fails for
    [None] only. *)
Definition process_user_input (env : turn_env) (prompt : str) : M unit :=
  let input_tokens := count_tokens prompt in
  let input_cost :=
    (float_of_nat input_tokens * COST_PER_INPUT_TOKEN)%float in
  modify (fun s =>
    set_total_input_tokens (total_input_tokens s + input_tokens) s) ;;
  modify (fun s =>
    set_total_cost (total_cost s + input_cost)%float s) ;;
  emit (ChatMessage user) ;;
  emit (Write prompt) ;;
  emit (ChatMessage assistant) ;;
  emit Empty ;;
  emit (PlaceholderMarkdown (lit "Thinking...")) ;;
  response <- invoke_agent (agent env) prompt ;;
  match response with
  | Some response =>
      process_agent_response (stamps env) response prompt
        input_tokens input_cost
  | None => ret tt
  end.

(** [render_session_analytics]: "Render session analytics in the given
    container".  [now] is the [time.time()] reading, [reset_session]
    what the button returns, and [uuid4], [reset_clock] what
    [init_state] reads after the store is cleared. *)
Definition render_session_analytics (now : float) (reset_session : bool)
  (uuid4 : str) (reset_clock : float) : M unit :=
  start <- read session_start_time ;;
  let session_duration := (now - start)%float in
  emit (Metric (lit "Session Duration") [HMS session_duration]) ;;
  i <- read total_input_tokens ;;
  emit (Metric (lit "Total Input Tokens") [Int i]) ;;
  o <- read total_output_tokens ;;
  emit (Metric (lit "Total Output Tokens") [Int o]) ;;
  i <- read total_input_tokens ;;
  o <- read total_output_tokens ;;
  emit (Metric (lit "Total Tokens") [Int (i + o)]) ;;
  c <- read total_cost ;;
  emit (Metric (lit "Total Cost ($)") [Fixed 4 c]) ;;
  p <- read total_prompt_time ;;
  emit (Metric (lit "Total Processing Time") [HMS p]) ;;
  emit (Button (lit "Reset Session")) ;;
  if reset_session
  then clear ;; init_state uuid4 reset_clock ;; raise RerunException
  else ret tt.

(** The loop that displays the chat messages. *)
Fixpoint show_messages (msgs : list Message.t) : M unit :=
  match msgs with
  | [] => ret tt
  | message :: rest =>
      emit (ChatMessage (Message.role message)) ;;
      emit (Markdown (Message.content message)) ;;
      show_messages rest
  end.

(** The truth value of a [str]: false exactly for the empty one. *)
Definition truthy (text : str) : bool :=
  match text with [] => false | _ :: _ => true end.

(** [render_chat_interface]: "Render main chat interface in the given
    container".  [chat_input] is what [container.chat_input] returns:
    [None], or the submitted text. *)
Definition render_chat_interface (chat_input : option str)
  (env : turn_env) : M unit :=
  msgs <- read messages ;;
  show_messages msgs ;;
  emit (ChatInput (lit "Enter your message")) ;;
  match chat_input with
  | Some prompt =>
      if truthy prompt then process_user_input env prompt else ret tt
  | None => ret tt
  end.

(** A key that only assistant metrics carry. *)
Definition metric_key {A} (v : option A) : M A :=
  match v with
  | Some a => ret a
  | None => raise KeyError
  end.

(** The loop of [render_prompt_analytics] over [range(0, len, 2)] with
    its guard [i + 1 < len]; [number] is [i//2 + 1] and [view] tells
    which "View Raw Trace" button was pressed. *)
Fixpoint render_pairs (view : nat -> bool) (number : nat)
  (msgs : list Message.t) : M unit :=
  match msgs with
  | user_msg :: assistant_msg :: rest =>
      let um := Message.metrics user_msg in
      let am := Message.metrics assistant_msg in
      emit (Expander (lit "Prompt " ++ str_of_nat number ++ lit " - "
                      ++ Metrics.timestamp um)) ;;
      emit (Columns 2) ;;
      emit (Column 0) ;;
      emit (Metric (lit "Input Tokens") [Int (Metrics.tokens um)]) ;;
      t <- metric_key (Metrics.execution_time am) ;;
      emit (Metric (lit "Processing Time") [Fixed 2 t; Lit (lit "s")]) ;;
      emit (Column 1) ;;
      emit (Metric (lit "Output Tokens") [Int (Metrics.tokens am)]) ;;
      let total_cost := (Metrics.cost um + Metrics.cost am)%float in
      emit (Metric (lit "Total Cost") [Lit (lit "$"); Fixed 4 total_cost]) ;;
      emit (Button (lit "View Raw Trace #" ++ str_of_nat number)) ;;
      (if view number
       then tr <- metric_key (Metrics.trace am) ;; emit (Json tr)
       else ret tt) ;;
      render_pairs view (S number) rest
  | _ => ret tt
  end.

(** [render_prompt_analytics]: "Render prompt analytics in the given
    container". *)
Definition render_prompt_analytics (view : nat -> bool) : M unit :=
  msgs <- read messages ;;
  render_pairs view 1 msgs.

(** Everything one run of the script reads from outside. *)
Record script_inputs := {
  fresh_uuid4 : str;
  init_clock : float;
  analytics_clock : float;
  reset_session : bool;
  reset_uuid4 : str;
  reset_clock : float;
  chat_input : option str;
  turn : turn_env;
  view_raw_trace : nat -> bool
}.

(** [main]: "Main application function". *)
Definition main (inp : script_inputs) : M unit :=
  emit Css ;;
  init_state (fresh_uuid4 inp) (init_clock inp) ;;
  emit Container ;;
  emit (Columns 3) ;;
  emit (Column 0) ;;
  emit (Title (lit "Session Analytics")) ;;
  render_session_analytics (analytics_clock inp) (reset_session inp)
    (reset_uuid4 inp) (reset_clock inp) ;;
  emit (Column 1) ;;
  emit (Title (lit "Sports Poem Chatbot")) ;;
  render_chat_interface (chat_input inp) (turn inp) ;;
  emit (Column 2) ;;
  emit (Title (lit "Prompt Analytics")) ;;
  render_prompt_analytics (view_raw_trace inp).

(** One run of the script: the page is drawn anew, and the run ends
    normally, by [st.rerun()] or by an uncaught exception. *)
Definition script_run (inp : script_inputs) (w : world) : world :=
  final (main inp {| session_state := session_state w;
                     screen := [];
                     calls := calls w |}).

Definition initial_world : world :=
  {| session_state := None; screen := []; calls := [] |}.

(** The worlds the application can be in: it starts with an empty
    store, and every interaction runs the script once more. *)
Inductive reachable : world -> Prop :=
| reachable_start : reachable initial_world
| reachable_run (inp : script_inputs) (w : world) :
    reachable w -> reachable (script_run inp w).

(** ** Quantities the properties speak of *)

(** The per-turn values of the transcript, by role. *)
Definition has_role (r : role) (m : Message.t) : bool :=
  match Message.role m, r with
  | user, user => true
  | assistant, assistant => true
  | _, _ => false
  end.

Definition turn_tokens (r : role) (msgs : list Message.t) : nat :=
  list_sum (map (fun m => Metrics.tokens (Message.metrics m))
                (filter (has_role r) msgs)).

(** The sum of the per-turn costs, added in transcript order from
    zero, as [sum(...)] does. *)
Definition turn_costs (msgs : list Message.t) : float :=
  fold_left (fun acc m => (acc + Metrics.cost (Message.metrics m))%float)
            msgs 0%float.

(** Counters and transcript agree. *)
Definition counters_match (s : session) : Prop :=
  total_input_tokens s = turn_tokens user (messages s) /\
  total_output_tokens s = turn_tokens assistant (messages s) /\
  total_cost s = turn_costs (messages s).

(** Every reference of the citations carries an S3 URI, as in the
    response the specification describes. *)
Definition has_uri (ref : reference) : bool :=
  match s3_uri ref with Some _ => true | None => false end.

Definition located (cits : list citation) : bool :=
  forallb (fun cit => forallb has_uri (retrievedReferences cit)) cits.

(** One line of the sources section for every (citation index,
    reference URI) pair, the citations numbered from [start]. *)
Fixpoint source_lines (start : nat) (cits : list citation) : list str :=
  match cits with
  | [] => []
  | cit :: rest =>
      flat_map (fun ref =>
                  match s3_uri ref with
                  | Some ref_uri => [str_of_nat start ++ lit ". " ++ ref_uri]
                  | None => []
                  end)
               (retrievedReferences cit)
      ++ source_lines (S start) rest
  end.

(** Text made of a header followed by lines, each on a line of its own. *)
Definition with_lines (header : str) (lines : list str) : str :=
  header ++ List.concat (map (fun line => newline :: line) lines).

(** User and assistant turns alternate, starting with a user turn and
    ending with an assistant turn. *)
Fixpoint paired (msgs : list Message.t) : Prop :=
  match msgs with
  | [] => True
  | u :: a :: rest =>
      Message.role u = user /\ Message.role a = assistant /\ paired rest
  | _ => False
  end.

(** The sources section as the specification words it: nothing for an
    empty citation list, else the header and one line per reference. *)
Definition sources_header : str := newline :: newline :: lit "**Sources:**".

Definition sources_section (cits : list citation) : str :=
  match cits with
  | [] => []
  | _ :: _ => with_lines sources_header (source_lines 1 cits)
  end.

(** A world whose store is initialised. *)
Definition mkworld (s : session) (scr : list ui_action) (cs : list request)
  : world :=
  {| session_state := Some s; screen := scr; calls := cs |}.

(** The response [invoke_agent] returns for a completed stream. *)
Definition received (run : agent_run) (events : list event) : Response.t :=
  let '(output_text, cits, tr) := read_completion events in
  Response.mk output_text cits tr (end_clock run - start_clock run)%float.

(** The request [invoke_agent] makes. *)
Definition request_for (s : session) (prompt : str) : request :=
  {| agentId := AGENT_ID;
     agentAliasId := AGENT_ALIAS_ID;
     enableTrace := true;
     sessionId := session_id s;
     inputText := prompt |}.

(** What [process_user_input] draws before the agent answers. *)
Definition turn_opening (prompt : str) : list ui_action :=
  [ChatMessage user; Write prompt; ChatMessage assistant; Empty;
   PlaceholderMarkdown (lit "Thinking...")].

(** The six metrics of the session panel and its button. *)
Definition metrics_panel (now : float) (s : session) : list ui_action :=
  [Metric (lit "Session Duration") [HMS (now - session_start_time s)%float];
   Metric (lit "Total Input Tokens") [Int (total_input_tokens s)];
   Metric (lit "Total Output Tokens") [Int (total_output_tokens s)];
   Metric (lit "Total Tokens")
          [Int (total_input_tokens s + total_output_tokens s)];
   Metric (lit "Total Cost ($)") [Fixed 4 (total_cost s)];
   Metric (lit "Total Processing Time") [HMS (total_prompt_time s)];
   Button (lit "Reset Session")].

(** The transcript as the chat panel draws it. *)
Definition transcript_view (msgs : list Message.t) : list ui_action :=
  flat_map (fun m => [ChatMessage (Message.role m);
                      Markdown (Message.content m)]) msgs.

(** The text of the assistant turn of a response whose references
    all carry a URI. *)
Definition shown_text (response : Response.t) : str :=
  match with_citations response with
  | Some text => text
  | None => []
  end.

(** The exception [process_user_input] ends with, by the reply of the
    agent; [None] when it returns. *)
Definition turn_exception (env : turn_env) : option exn :=
  match reply (agent env) with
  | Failed _ => None
  | Completed events =>
      if located (Response.citations (received (agent env) events))
      then None else Some KeyError
  | NoClient exception | Aborted exception => Some (Uncaught exception)
  end.

(** The session variables after [process_user_input], by the reply of
    the agent. *)
Definition after_turn (env : turn_env) (prompt : str) (s : session)
  : session :=
  let input_tokens := count_tokens prompt in
  let input_cost :=
    (float_of_nat input_tokens * COST_PER_INPUT_TOKEN)%float in
  match reply (agent env) with
  | Failed _ | NoClient _ | Aborted _ =>
      {| session_id := session_id s;
         messages := messages s;
         citations := citations s;
         trace := trace s;
         total_cost := (total_cost s + input_cost)%float;
         total_input_tokens := total_input_tokens s + input_tokens;
         total_output_tokens := total_output_tokens s;
         session_start_time := session_start_time s;
         total_prompt_time := total_prompt_time s |}
  | Completed events =>
      let r := received (agent env) events in
      let output_tokens := count_tokens (Response.output_text r) in
      let output_cost :=
        (float_of_nat output_tokens * COST_PER_OUTPUT_TOKEN)%float in
      if located (Response.citations r)
      then
        {| session_id := session_id s;
           messages :=
             messages s ++
             [Message.mk user prompt
                (Metrics.mk input_tokens input_cost
                   (user_timestamp (stamps env)) None None);
              Message.mk assistant (shown_text r)
                (Metrics.mk output_tokens output_cost
                   (assistant_timestamp (stamps env))
                   (Some (Response.execution_time r))
                   (Some (Response.trace r)))];
           citations := Response.citations r;
           trace := Response.trace r;
           total_cost := (total_cost s + input_cost + output_cost)%float;
           total_input_tokens := total_input_tokens s + input_tokens;
           total_output_tokens := total_output_tokens s + output_tokens;
           session_start_time := session_start_time s;
           total_prompt_time :=
             (total_prompt_time s + Response.execution_time r)%float |}
      else
        {| session_id := session_id s;
           messages := messages s;
           citations := citations s;
           trace := trace s;
           total_cost := (total_cost s + input_cost + output_cost)%float;
           total_input_tokens := total_input_tokens s + input_tokens;
           total_output_tokens := total_output_tokens s + output_tokens;
           session_start_time := session_start_time s;
           total_prompt_time :=
             (total_prompt_time s + Response.execution_time r)%float |}
  end.

(** The session variables after one run of the script. *)
Definition after_script (inp : script_inputs) (st : option session)
  : session :=
  let s0 := match st with
            | Some s => s
            | None => fresh_session (fresh_uuid4 inp) (init_clock inp)
            end in
  if reset_session inp
  then fresh_session (reset_uuid4 inp) (reset_clock inp)
  else match chat_input inp with
       | Some prompt =>
           if truthy prompt then after_turn (turn inp) prompt s0 else s0
       | None => s0
       end.

(** The transcript of a world: [st.session_state.messages], empty
    while the store is. *)
Definition transcript (w : world) : list Message.t :=
  match session_state w with
  | Some s => messages s
  | None => []
  end.

(** Counters and transcript agree in a world (an empty store has
    neither). *)
Definition sums_hold (w : world) : Prop :=
  match session_state w with
  | Some s => counters_match s
  | None => True
  end.

(** ** Sample inputs *)

Definition text_event (text : str) : event :=
  {| ev_chunk := Some {| chunk_text := text; attribution := None |};
     ev_trace := None |}.

Definition cited_event (text : str) (cits : list citation) : event :=
  {| ev_chunk := Some {| chunk_text := text; attribution := Some cits |};
     ev_trace := None |}.

Definition sample_stamps : timestamps :=
  {| user_timestamp := lit "12:00:00";
     assistant_timestamp := lit "12:00:01" |}.

(** The agent answers "hi there friend" in 1.2 seconds. *)
Definition answering_turn : turn_env :=
  {| agent := {| start_clock := 0%float;
                 reply := Completed [text_event (lit "hi there friend")];
                 end_clock := 1.2%float |};
     stamps := sample_stamps |}.

(** The agent call raises [ClientError]. *)
Definition failing_turn : turn_env :=
  {| agent := {| start_clock := 0%float;
                 reply := Failed (lit "service unavailable");
                 end_clock := 1.2%float |};
     stamps := sample_stamps |}.

Definition sample_session : session :=
  fresh_session (lit "0f8fad5b-d9cb-469f-a165-70867728950e") 0%float.

Definition src (text : string) : reference :=
  {| location := Some {| s3Location := Some {| uri := Some (lit text) |} |} |}.

(** A reference to a web page: its location has no S3 part. *)
Definition web_reference : reference :=
  {| location := Some {| s3Location := None |} |}.

(** The agent answers "hi there friend" and cites a web page. *)
Definition web_citing_turn : turn_env :=
  {| agent := {| start_clock := 0%float;
                 reply := Completed
                            [cited_event (lit "hi there friend")
                               [{| retrievedReferences := [web_reference] |}]];
                 end_clock := 1.2%float |};
     stamps := sample_stamps |}.

(** Building the agent client raises. *)
Definition clientless_turn : turn_env :=
  {| agent := {| start_clock := 0%float;
                 reply := NoClient (lit "NoRegionError");
                 end_clock := 1.2%float |};
     stamps := sample_stamps |}.

Definition sample_citations : list citation :=
  [{| retrievedReferences := [src "s3://a"] |};
   {| retrievedReferences := [src "s3://b"; src "s3://c"] |}].

(** A run of the script in which [prompt] is submitted in the chat
    input and nothing else is pressed. *)
Definition submit (prompt : str) (env : turn_env) : script_inputs :=
  {| fresh_uuid4 := lit "0f8fad5b-d9cb-469f-a165-70867728950e";
     init_clock := 0%float;
     analytics_clock := 0%float;
     reset_session := false;
     reset_uuid4 := lit "7c9e6679-7425-40de-944b-e07fc1f90ae7";
     reset_clock := 0%float;
     chat_input := Some prompt;
     turn := env;
     view_raw_trace := fun _ => false |}.

(** The same run of the script with "Reset Session" pressed. *)
Definition press_reset (inp : script_inputs) : script_inputs :=
  {| fresh_uuid4 := fresh_uuid4 inp;
     init_clock := init_clock inp;
     analytics_clock := analytics_clock inp;
     reset_session := true;
     reset_uuid4 := reset_uuid4 inp;
     reset_clock := reset_clock inp;
     chat_input := chat_input inp;
     turn := turn inp;
     view_raw_trace := view_raw_trace inp |}.

(** The application after its first exchange, "hello world" answered
    by "hi there friend". *)
Definition after_hello : world :=
  script_run (submit (lit "hello world") answering_turn) initial_world.

(** The application after a first exchange that failed. *)
Definition after_failure : world :=
  script_run (submit (lit "hello world") failing_turn) initial_world.

(** ** Further quantities *)

(** What one event of the completion stream contributes: its chunk
    text, its citations, and its record for a trace type. *)
Definition event_text (ev : event) : str :=
  match ev_chunk ev with
  | Some ch => chunk_text ch
  | None => []
  end.

Definition event_citations (ev : event) : list citation :=
  match ev_chunk ev with
  | Some ch => match attribution ch with Some cs => cs | None => [] end
  | None => []
  end.

Definition event_records (t : trace_type) (ev : event) : list json :=
  match ev_trace ev with
  | Some parts => match parts t with Some record => [record] | None => [] end
  | None => []
  end.

(** [trace.get(t, [])]: the records stored under a trace type. *)
Fixpoint trace_get (t : trace_type) (tr : trace_dict) : list json :=
  match tr with
  | [] => []
  | (t', xs) :: rest => if trace_type_eqb t t' then xs else trace_get t rest
  end.

(** The sum of the execution times the transcript records, added in
    transcript order from zero. *)
Definition turn_times (msgs : list Message.t) : float :=
  fold_left
    (fun acc m =>
       match Metrics.execution_time (Message.metrics m) with
       | Some t => (acc + t)%float
       | None => acc
       end)
    msgs 0%float.

(** A message that carries the two keys of assistant metrics. *)
Definition answered (m : Message.t) : bool :=
  match Metrics.execution_time (Message.metrics m),
        Metrics.trace (Message.metrics m) with
  | Some _, Some _ => true
  | _, _ => false
  end.

(** The second message of every pair of the transcript is answered. *)
Fixpoint pairs_answered (msgs : list Message.t) : bool :=
  match msgs with
  | _ :: a :: rest => answered a && pairs_answered rest
  | _ => true
  end.

(** The session variables once [init_state] has run. *)
Definition opened (inp : script_inputs) (st : option session) : session :=
  match st with
  | Some s => s
  | None => fresh_session (fresh_uuid4 inp) (init_clock inp)
  end.

(** The text the chat panel hands to [process_user_input], if any. *)
Definition submitted (inp : script_inputs) : option str :=
  match chat_input inp with
  | Some prompt => if truthy prompt then Some prompt else None
  | None => None
  end.

(** What [process_user_input] draws, by the reply of the agent. *)
Definition turn_screen (env : turn_env) (prompt : str) : list ui_action :=
  turn_opening prompt ++
  match reply (agent env) with
  | Failed message => [Error (lit "Error invoking agent: " ++ message)]
  | Completed events =>
      match with_citations (received (agent env) events) with
      | Some text => [PlaceholderMarkdown text]
      | None => []
      end
  | NoClient _ | Aborted _ => []
  end.

(** The requests [process_user_input] makes: one, unless the client
    could not be built. *)
Definition turn_calls (env : turn_env) (prompt : str) (s : session)
  : list request :=
  match reply (agent env) with
  | NoClient _ => []
  | _ => [request_for s prompt]
  end.

(** The exception the chat panel of a run ends with, if any. *)
Definition run_exception (inp : script_inputs) : option exn :=
  match submitted inp with
  | Some _ => turn_exception (turn inp)
  | None => None
  end.

(** A result from the exception a function ends with, if any. *)
Definition ended (e : option exn) (w : world) : result unit :=
  match e with
  | None => Ok tt w
  | Some e => Raise e w
  end.

(** The page of a run without reset, up to the title of the third
    column, or up to the exception of the chat panel. *)
Definition page (inp : script_inputs) (s0 : session) : list ui_action :=
  [Css; Container; Columns 3; Column 0; Title (lit "Session Analytics")]
  ++ metrics_panel (analytics_clock inp) s0
  ++ [Column 1; Title (lit "Sports Poem Chatbot")]
  ++ transcript_view (messages s0)
  ++ [ChatInput (lit "Enter your message")]
  ++ match submitted inp with
     | Some prompt => turn_screen (turn inp) prompt
     | None => []
     end
  ++ match run_exception inp with
     | None => [Column 2; Title (lit "Prompt Analytics")]
     | Some _ => []
     end.

(** The requests of a run without reset. *)
Definition run_calls (inp : script_inputs) (s0 : session) : list request :=
  match submitted inp with
  | Some prompt => turn_calls (turn inp) prompt s0
  | None => []
  end.

(** The world in which a run of the script starts. *)
Definition redraw (w : world) : world :=
  {| session_state := session_state w; screen := []; calls := calls w |}.


(** A text of three spaces. *)
Definition blank_text : str := lit "   ".

(** The number of expanders among the elements of a page. *)
Definition expanders (scr : list ui_action) : nat :=
  List.length
    (filter (fun a => match a with Expander _ => true | _ => false end) scr).

(** The session variables after the first exchange. *)
Definition hello_session : session :=
  after_script (submit (lit "hello world") answering_turn) None.

(** ** Proof steps *)

(** Writes the worlds of the goal that have an initialised store with
    [mkworld], the form the run lemmas are stated in. *)
Ltac fold_world :=
  repeat match goal with
  | |- context [ {| session_state := Some ?s; screen := ?a; calls := ?c |} ] =>
      change {| session_state := Some s; screen := a; calls := c |}
        with (mkworld s a c)
  end.

(** Runs [process_user_input] up to its call of [invoke_agent]. *)
Ltac enter_turn :=
  unfold process_user_input, bind;
  cbn -[invoke_agent process_agent_response];
  fold_world.

(** * Properties *)

(** ** Tokens *)

Lemma split_from_length (text word : str) :
  List.length (split_from word text)
  = token_starts (match word with [] => true | _ => false end) text
    + match word with [] => 0 | _ => 1 end.
Proof.
  revert word.
  induction text as [|c rest IH]; intros word.
  - destruct word; reflexivity.
  - simpl. destruct (isspace c) eqn:Hc.
    + destruct word; simpl; rewrite IH; simpl; lia.
    + rewrite IH. destruct word; simpl; lia.
Qed.

Lemma count_tokens_spec (text : str) :
  count_tokens text = whitespace_separated_tokens text.
Proof.
  unfold count_tokens, split, whitespace_separated_tokens.
  rewrite split_from_length. lia.
Qed.

(** The words [split] returns are the maximal whitespace-free runs:
    none is empty, none holds a whitespace character, and together
    they are the text without its whitespace. *)
Lemma split_from_words (text word : str) :
  forallb (fun c => negb (isspace c)) word = true ->
  Forall (fun wd => wd <> [] /\ forallb (fun c => negb (isspace c)) wd = true)
         (split_from word text)
  /\ List.concat (split_from word text)
     = word ++ filter (fun c => negb (isspace c)) text.
Proof.
  revert word.
  induction text as [|c rest IH]; intros word Hword.
  - destruct word as [|d word'].
    + split; [constructor | reflexivity].
    + split.
      * constructor; [split; [discriminate | exact Hword] | constructor].
      * simpl. now rewrite !app_nil_r.
  - simpl. destruct (isspace c) eqn:Hc; simpl.
    + destruct (IH [] eq_refl) as [Hall Hcat].
      destruct word as [|d word'].
      * split; [exact Hall | exact Hcat].
      * split.
        -- constructor; [split; [discriminate | exact Hword] | exact Hall].
        -- simpl. rewrite Hcat. reflexivity.
    + assert (Hword' : forallb (fun c => negb (isspace c)) (word ++ [c]) = true).
      { rewrite forallb_app, Hword. simpl. now rewrite Hc. }
      destruct (IH (word ++ [c]) Hword') as [Hall Hcat].
      split; [exact Hall |].
      rewrite Hcat, <- app_assoc. reflexivity.
Qed.

Lemma split_words (text : str) :
  Forall (fun wd => wd <> [] /\ forallb (fun c => negb (isspace c)) wd = true)
         (split text)
  /\ List.concat (split text) = filter (fun c => negb (isspace c)) text.
Proof. exact (split_from_words text [] eq_refl). Qed.

Example split_example :
  split (lit "  hello   world ") = [lit "hello"; lit "world"].
Proof. reflexivity. Qed.

Example count_tokens_blank : count_tokens (lit "   ") = 0.
Proof. reflexivity. Qed.

(** ** The sources text *)

Lemma reference_loop_raised (idx : nat) (refs : list reference) :
  fold_left
    (fun text ref =>
       match text, s3_uri ref with
       | Some text, Some ref_uri =>
           Some (text ++ newline :: str_of_nat idx ++ lit ". " ++ ref_uri)
       | _, _ => None
       end)
    refs None
  = None.
Proof. induction refs as [|ref refs IH]; [reflexivity | exact IH]. Qed.

Lemma reference_loop (idx : nat) (refs : list reference) (text : str) :
  fold_left
    (fun text ref =>
       match text, s3_uri ref with
       | Some text, Some ref_uri =>
           Some (text ++ newline :: str_of_nat idx ++ lit ". " ++ ref_uri)
       | _, _ => None
       end)
    refs (Some text)
  = if forallb has_uri refs
    then Some (text ++ List.concat
                 (map (fun line => newline :: line)
                      (flat_map
                         (fun ref =>
                            match s3_uri ref with
                            | Some ref_uri =>
                                [str_of_nat idx ++ lit ". " ++ ref_uri]
                            | None => []
                            end)
                         refs)))
    else None.
Proof.
  revert text.
  induction refs as [|ref refs IH]; intros text; cbn [fold_left forallb].
  - cbn. now rewrite app_nil_r.
  - unfold has_uri at 1. destruct (s3_uri ref) as [ref_uri|] eqn:E.
    + rewrite IH. cbn [andb flat_map]. rewrite E.
      destruct (forallb has_uri refs); [|reflexivity].
      cbn. now rewrite <- app_assoc.
    + cbn [andb]. apply reference_loop_raised.
Qed.

Lemma citation_loop_raised (cits : list (nat * citation)) :
  fold_left
    (fun text '(idx, cit) =>
       fold_left
         (fun text ref =>
            match text, s3_uri ref with
            | Some text, Some ref_uri =>
                Some (text ++ newline :: str_of_nat idx ++ lit ". "
                           ++ ref_uri)
            | _, _ => None
            end)
         (retrievedReferences cit) text)
    cits None
  = None.
Proof.
  induction cits as [|[idx cit] cits IH]; [reflexivity|].
  cbn [fold_left]. now rewrite reference_loop_raised.
Qed.

Lemma citation_loop (cits : list citation) (first : nat) (text : str) :
  fold_left
    (fun text '(idx, cit) =>
       fold_left
         (fun text ref =>
            match text, s3_uri ref with
            | Some text, Some ref_uri =>
                Some (text ++ newline :: str_of_nat idx ++ lit ". "
                           ++ ref_uri)
            | _, _ => None
            end)
         (retrievedReferences cit) text)
    (enumerate first cits) (Some text)
  = if located cits
    then Some (with_lines text (source_lines first cits))
    else None.
Proof.
  unfold with_lines.
  revert first text.
  induction cits as [|cit cits IH]; intros first text;
    cbn [enumerate fold_left located forallb source_lines].
  - cbn. now rewrite app_nil_r.
  - rewrite reference_loop.
    destruct (forallb has_uri (retrievedReferences cit)); cbn [andb].
    + rewrite IH. fold (located cits).
      destruct (located cits); [|reflexivity].
      now rewrite map_app, concat_app, app_assoc.
    + apply citation_loop_raised.
Qed.

Lemma citation_text_lines (cits : list citation) :
  citation_text cits
  = if located cits
    then Some (with_lines sources_header (source_lines 1 cits))
    else None.
Proof. apply citation_loop. Qed.

Lemma with_citations_section (response : Response.t) :
  with_citations response
  = if located (Response.citations response)
    then Some (Response.output_text response
               ++ sources_section (Response.citations response))
    else None.
Proof.
  unfold with_citations, sources_section.
  destruct (Response.citations response) as [|cit cits].
  - cbn. now rewrite app_nil_r.
  - rewrite citation_text_lines.
    now destruct (located (cit :: cits)).
Qed.

(** ** Running the turn functions on an initialised store *)

Lemma process_agent_response_run (ts : timestamps) (r : Response.t)
  (prompt text : str) (input_tokens : nat) (input_cost : float)
  (s : session) (scr : list ui_action) (cs : list request) :
  with_citations r = Some text ->
  let output_tokens := count_tokens (Response.output_text r) in
  let output_cost :=
    (float_of_nat output_tokens * COST_PER_OUTPUT_TOKEN)%float in
  process_agent_response ts r prompt input_tokens input_cost
    (mkworld s scr cs)
  = Ok tt
      (mkworld
         {| session_id := session_id s;
            messages :=
              messages s ++
              [Message.mk user prompt
                 (Metrics.mk input_tokens input_cost (user_timestamp ts)
                    None None);
               Message.mk assistant text
                 (Metrics.mk output_tokens output_cost
                    (assistant_timestamp ts)
                    (Some (Response.execution_time r))
                    (Some (Response.trace r)))];
            citations := Response.citations r;
            trace := Response.trace r;
            total_cost := (total_cost s + output_cost)%float;
            total_input_tokens := total_input_tokens s;
            total_output_tokens := total_output_tokens s + output_tokens;
            session_start_time := session_start_time s;
            total_prompt_time := total_prompt_time s |}
         (scr ++ [PlaceholderMarkdown text])
         cs).
Proof.
  intros Htext. unfold process_agent_response, bind, mkworld. cbn.
  rewrite Htext. reflexivity.
Qed.

Lemma process_agent_response_raised (ts : timestamps) (r : Response.t)
  (prompt : str) (input_tokens : nat) (input_cost : float)
  (s : session) (scr : list ui_action) (cs : list request) :
  with_citations r = None ->
  let output_tokens := count_tokens (Response.output_text r) in
  let output_cost :=
    (float_of_nat output_tokens * COST_PER_OUTPUT_TOKEN)%float in
  process_agent_response ts r prompt input_tokens input_cost
    (mkworld s scr cs)
  = Raise KeyError
      (mkworld
         {| session_id := session_id s;
            messages := messages s;
            citations := citations s;
            trace := trace s;
            total_cost := (total_cost s + output_cost)%float;
            total_input_tokens := total_input_tokens s;
            total_output_tokens := total_output_tokens s + output_tokens;
            session_start_time := session_start_time s;
            total_prompt_time := total_prompt_time s |}
         scr cs).
Proof.
  intros Htext. unfold process_agent_response, bind, mkworld. cbn.
  rewrite Htext. reflexivity.
Qed.

Lemma invoke_agent_completed_run (run : agent_run) (events : list event)
  (prompt : str) (s : session) (scr : list ui_action) (cs : list request) :
  reply run = Completed events ->
  invoke_agent run prompt (mkworld s scr cs)
  = Ok (Some (received run events))
       (mkworld
          (set_total_prompt_time
             (total_prompt_time s
              + Response.execution_time (received run events))%float s)
          scr (cs ++ [request_for s prompt])).
Proof.
  intros Hreply. unfold invoke_agent, build_client, bind, mkworld, received.
  cbn. rewrite Hreply.
  destruct (read_completion events) as [[output_text cits] tr].
  reflexivity.
Qed.

Lemma invoke_agent_uncaught (run : agent_run) (prompt : str)
  (s : session) (scr : list ui_action) (cs : list request) :
  (forall e, reply run = NoClient e ->
             invoke_agent run prompt (mkworld s scr cs)
             = Raise (Uncaught e) (mkworld s scr cs)) /\
  (forall e, reply run = Aborted e ->
             invoke_agent run prompt (mkworld s scr cs)
             = Raise (Uncaught e)
                     (mkworld s scr (cs ++ [request_for s prompt]))).
Proof.
  split; intros e Hreply;
    unfold invoke_agent, build_client, bind, mkworld; cbn;
    rewrite Hreply; reflexivity.
Qed.

Lemma process_user_input_failed (env : turn_env) (prompt message : str)
  (s : session) (scr : list ui_action) (cs : list request) :
  reply (agent env) = Failed message ->
  let input_tokens := count_tokens prompt in
  let input_cost :=
    (float_of_nat input_tokens * COST_PER_INPUT_TOKEN)%float in
  process_user_input env prompt (mkworld s scr cs)
  = Ok tt
      (mkworld
         {| session_id := session_id s;
            messages := messages s;
            citations := citations s;
            trace := trace s;
            total_cost := (total_cost s + input_cost)%float;
            total_input_tokens := total_input_tokens s + input_tokens;
            total_output_tokens := total_output_tokens s;
            session_start_time := session_start_time s;
            total_prompt_time := total_prompt_time s |}
         ((scr ++ turn_opening prompt)
          ++ [Error (lit "Error invoking agent: " ++ message)])
         (cs ++ [request_for s prompt])).
Proof.
  intros Hreply.
  unfold process_user_input, invoke_agent, build_client, bind, mkworld.
  cbn. rewrite Hreply. cbn.
  rewrite <- !app_assoc. reflexivity.
Qed.

Lemma process_user_input_completed (env : turn_env) (prompt : str)
  (events : list event)
  (s : session) (scr : list ui_action) (cs : list request) :
  reply (agent env) = Completed events ->
  let r := received (agent env) events in
  located (Response.citations r) = true ->
  let input_tokens := count_tokens prompt in
  let input_cost :=
    (float_of_nat input_tokens * COST_PER_INPUT_TOKEN)%float in
  let output_tokens := count_tokens (Response.output_text r) in
  let output_cost :=
    (float_of_nat output_tokens * COST_PER_OUTPUT_TOKEN)%float in
  let text :=
    Response.output_text r ++ sources_section (Response.citations r) in
  process_user_input env prompt (mkworld s scr cs)
  = Ok tt
      (mkworld
         {| session_id := session_id s;
            messages :=
              messages s ++
              [Message.mk user prompt
                 (Metrics.mk input_tokens input_cost
                    (user_timestamp (stamps env)) None None);
               Message.mk assistant text
                 (Metrics.mk output_tokens output_cost
                    (assistant_timestamp (stamps env))
                    (Some (Response.execution_time r))
                    (Some (Response.trace r)))];
            citations := Response.citations r;
            trace := Response.trace r;
            total_cost := (total_cost s + input_cost + output_cost)%float;
            total_input_tokens := total_input_tokens s + input_tokens;
            total_output_tokens := total_output_tokens s + output_tokens;
            session_start_time := session_start_time s;
            total_prompt_time :=
              (total_prompt_time s + Response.execution_time r)%float |}
         ((scr ++ turn_opening prompt) ++ [PlaceholderMarkdown text])
         (cs ++ [request_for s prompt])).
Proof.
  intros Hreply r Hloc.
  assert (Htext : with_citations r
                  = Some (Response.output_text r
                          ++ sources_section (Response.citations r))).
  { rewrite with_citations_section. now rewrite Hloc. }
  subst r. cbv zeta. enter_turn.
  rewrite (invoke_agent_completed_run _ _ _ _ _ _ Hreply).
  unfold set_total_prompt_time. cbn -[process_agent_response]. fold_world.
  rewrite (process_agent_response_run _ _ _ _ _ _ _ _ _ Htext).
  cbn. rewrite <- !app_assoc. reflexivity.
Qed.

(** What [process_user_input] does, whatever the agent replies. *)
Lemma process_user_input_run (env : turn_env) (prompt : str)
  (s : session) (scr : list ui_action) (cs : list request) :
  process_user_input env prompt (mkworld s scr cs)
  = ended (turn_exception env)
      (mkworld (after_turn env prompt s)
               (scr ++ turn_screen env prompt)
               (cs ++ turn_calls env prompt s)).
Proof.
  unfold turn_exception, after_turn, turn_screen, turn_calls.
  destruct (reply (agent env)) as [message|events|e|e] eqn:Hreply.
  - rewrite (process_user_input_failed _ _ _ _ _ _ Hreply).
    cbn. now rewrite <- app_assoc.
  - destruct (located (Response.citations (received (agent env) events)))
      eqn:Hloc.
    + rewrite (process_user_input_completed _ _ _ _ _ _ Hreply Hloc).
      unfold shown_text. rewrite with_citations_section, Hloc.
      cbn. now rewrite <- app_assoc.
    + assert (Htext : with_citations (received (agent env) events) = None)
        by (rewrite with_citations_section; now rewrite Hloc).
      rewrite Htext. enter_turn.
      rewrite (invoke_agent_completed_run _ _ _ _ _ _ Hreply).
      unfold set_total_prompt_time. cbn -[process_agent_response].
      fold_world.
      rewrite (process_agent_response_raised _ _ _ _ _ _ _ _ Htext).
      cbn. rewrite <- ?app_assoc, ?app_nil_r. reflexivity.
  - enter_turn.
    rewrite (proj1 (invoke_agent_uncaught _ _ _ _ _) e Hreply).
    cbn. rewrite <- ?app_assoc, ?app_nil_r. reflexivity.
  - enter_turn.
    rewrite (proj2 (invoke_agent_uncaught _ _ _ _ _) e Hreply).
    cbn. rewrite <- ?app_assoc, ?app_nil_r. reflexivity.
Qed.

Lemma world_eta (w : world) :
  {| session_state := session_state w; screen := screen w;
     calls := calls w |} = w.
Proof. now destruct w. Qed.

Lemma show_messages_run (msgs : list Message.t) (w : world) :
  show_messages msgs w
  = Ok tt {| session_state := session_state w;
             screen := screen w ++ transcript_view msgs;
             calls := calls w |}.
Proof.
  revert w.
  induction msgs as [|m msgs IH]; intros w.
  - cbn. now rewrite app_nil_r, world_eta.
  - cbn. unfold bind. cbn. rewrite IH. cbn.
    now rewrite <- !app_assoc.
Qed.

Lemma render_session_analytics_run (now : float) (uuid4 : str)
  (clock : float) (s : session) (scr : list ui_action)
  (cs : list request) :
  render_session_analytics now false uuid4 clock (mkworld s scr cs)
  = Ok tt (mkworld s (scr ++ metrics_panel now s) cs).
Proof.
  unfold render_session_analytics, bind, mkworld. cbn.
  now rewrite <- !app_assoc.
Qed.

Lemma render_session_analytics_reset (now : float) (uuid4 : str)
  (clock : float) (s : session) (scr : list ui_action)
  (cs : list request) :
  render_session_analytics now true uuid4 clock (mkworld s scr cs)
  = Raise RerunException
      (mkworld (fresh_session uuid4 clock) (scr ++ metrics_panel now s) cs).
Proof.
  unfold render_session_analytics, bind, mkworld. cbn.
  now rewrite <- !app_assoc.
Qed.

Lemma render_chat_interface_run (submitted : option str) (env : turn_env)
  (s : session) (scr : list ui_action) (cs : list request) :
  render_chat_interface submitted env (mkworld s scr cs)
  = let w := mkworld s
               (scr ++ transcript_view (messages s)
                    ++ [ChatInput (lit "Enter your message")]) cs in
    match submitted with
    | Some prompt =>
        if truthy prompt then process_user_input env prompt w else Ok tt w
    | None => Ok tt w
    end.
Proof.
  unfold render_chat_interface, bind at 1 2. cbn.
  rewrite show_messages_run. cbn. rewrite <- app_assoc.
  destruct submitted as [prompt|]; [destruct (truthy prompt)|]; reflexivity.
Qed.

Lemma render_pairs_frame (view : nat -> bool) (msgs : list Message.t) :
  forall (number : nat) (w : world),
    session_state (final (render_pairs view number msgs w)) = session_state w
    /\ calls (final (render_pairs view number msgs w)) = calls w.
Proof.
  enough (H : (forall number w,
                 session_state (final (render_pairs view number msgs w))
                 = session_state w
                 /\ calls (final (render_pairs view number msgs w)) = calls w)
              /\ (forall m number w,
                 session_state (final (render_pairs view number (m :: msgs) w))
                 = session_state w
                 /\ calls (final (render_pairs view number (m :: msgs) w))
                    = calls w)) by apply H.
  induction msgs as [|m1 msgs [IH0 IH1]].
  - split; intros; cbn; auto.
  - split; [intros; apply IH1|].
    intros m number w. cbn. unfold bind. cbn.
    destruct (Metrics.execution_time (Message.metrics m1)) as [t|]; cbn;
      [|auto].
    destruct (view number); cbn.
    + destruct (Metrics.trace (Message.metrics m1)) as [tr|]; cbn; [|auto].
      match goal with |- context [render_pairs view ?n msgs ?w0] =>
        destruct (IH0 n w0) as [E1 E2] end.
      rewrite E1, E2. auto.
    + match goal with |- context [render_pairs view ?n msgs ?w0] =>
        destruct (IH0 n w0) as [E1 E2] end.
      rewrite E1, E2. auto.
Qed.

Lemma script_run_session (inp : script_inputs) (w : world) :
  session_state (script_run inp w)
  = Some (after_script inp (session_state w)).
Proof.
  unfold script_run, after_script, main.
  unfold bind at 1 2. cbn.
  set (s0 := match session_state w with
             | Some s => s
             | None => fresh_session (fresh_uuid4 inp) (init_clock inp)
             end).
  assert (Hinit : forall scr,
    init_state (fresh_uuid4 inp) (init_clock inp)
      {| session_state := session_state w; screen := scr;
         calls := calls w |}
    = Ok tt (mkworld s0 scr (calls w))).
  { intros scr. unfold init_state, s0. cbn.
    destruct (session_state w); reflexivity. }
  rewrite Hinit. cbn [mkworld session_state screen calls]. fold_world.
  unfold bind at 1.
  destruct (reset_session inp).
  { rewrite render_session_analytics_reset. reflexivity. }
  rewrite render_session_analytics_run. unfold bind at 1 2.
  cbn [emit mkworld session_state screen calls]. fold_world.
  unfold bind at 1. rewrite render_chat_interface_run.
  cbv zeta.
  assert (Hrest : forall s scr cs,
    session_state
      (final ((emit (Column 2);;
               emit (Title (lit "Prompt Analytics"));;
               render_prompt_analytics (view_raw_trace inp))
              (mkworld s scr cs))) = Some s).
  { intros s scr cs. unfold bind, render_prompt_analytics. cbn.
    apply render_pairs_frame. }
  destruct (chat_input inp) as [prompt|]; [destruct (truthy prompt)|];
    try apply Hrest.
  rewrite process_user_input_run.
  destruct (turn_exception (turn inp)); cbn [ended];
    [reflexivity | apply Hrest].
Qed.

(** ** Alternation of the transcript *)

(** Induction on a transcript two messages at a time. *)
Lemma pairs_ind (P : list Message.t -> Prop) :
  P [] ->
  (forall m, P [m]) ->
  (forall u a rest, P rest -> P (u :: a :: rest)) ->
  forall msgs, P msgs.
Proof.
  intros Hnil Hone Hstep msgs.
  enough (H : P msgs /\ forall m, P (m :: msgs)) by apply H.
  induction msgs as [|m1 msgs [IH0 IH1]].
  - split; [exact Hnil | exact Hone].
  - split; [apply IH1 | intros m; apply Hstep, IH0].
Qed.

Lemma paired_app (msgs : list Message.t) (u a : Message.t) :
  Message.role u = user -> Message.role a = assistant ->
  paired msgs -> paired (msgs ++ [u; a]).
Proof.
  intros Hu Ha.
  induction msgs as [|m|u' a' rest IH] using pairs_ind; cbn.
  - auto.
  - intros [].
  - intros (Hu' & Ha' & Hrest). auto.
Qed.

Lemma paired_index (k : nat) :
  forall msgs,
    paired msgs ->
    2 * k < List.length msgs ->
    exists u a,
      nth_error msgs (2 * k) = Some u /\ Message.role u = user /\
      nth_error msgs (2 * k + 1) = Some a /\ Message.role a = assistant.
Proof.
  induction k as [|k IH]; intros [|u [|a rest]] Hp Hlen; cbn in Hp, Hlen;
    try lia; try contradiction.
  - destruct Hp as (Hu & Ha & _). exists u, a. cbn. auto.
  - destruct Hp as (_ & _ & Hrest).
    destruct (IH rest Hrest) as (u' & a' & H1 & H2 & H3 & H4); [lia|].
    exists u', a'.
    replace (2 * S k) with (S (S (2 * k))) by lia.
    replace (S (S (2 * k)) + 1) with (S (S (2 * k + 1))) by lia.
    cbn [nth_error]. auto.
Qed.

Lemma after_turn_paired (env : turn_env) (prompt : str) (s : session) :
  paired (messages s) -> paired (messages (after_turn env prompt s)).
Proof.
  intros Hp. unfold after_turn.
  destruct (reply (agent env)) as [message|events|e|e];
    [| destruct (located (Response.citations (received (agent env) events)))
     | |];
    cbn [messages]; try exact Hp.
  now apply paired_app.
Qed.

Lemma after_script_paired (inp : script_inputs) (st : option session) :
  match st with Some s => paired (messages s) | None => True end ->
  paired (messages (after_script inp st)).
Proof.
  intros Hst. unfold after_script.
  assert (H0 : paired (messages
                         match st with
                         | Some s => s
                         | None => fresh_session (fresh_uuid4 inp)
                                                 (init_clock inp)
                         end)).
  { destruct st; [exact Hst | exact I]. }
  destruct (reset_session inp); [exact I|].
  destruct (chat_input inp) as [prompt|]; [|exact H0].
  destruct (truthy prompt); [|exact H0].
  now apply after_turn_paired.
Qed.

Lemma reachable_paired (w : world) :
  reachable w -> paired (transcript w).
Proof.
  induction 1 as [|inp w Hw IH].
  - exact I.
  - unfold transcript in *. rewrite script_run_session.
    apply after_script_paired.
    destruct (session_state w); [exact IH | exact I].
Qed.

(** C5: in every reachable state of the session, for every index [2k]
    into the transcript, the turn at [2k] is a user turn and the turn
    at [2k+1] exists and is an assistant turn. *)
Theorem transcript_alternates (w : world) (k : nat) :
  reachable w ->
  2 * k < List.length (transcript w) ->
  exists u a,
    nth_error (transcript w) (2 * k) = Some u /\
    Message.role u = user /\
    nth_error (transcript w) (2 * k + 1) = Some a /\
    Message.role a = assistant.
Proof.
  intros Hw Hk. apply paired_index; [now apply reachable_paired | exact Hk].
Qed.

Lemma transcript_alternates_witness :
  reachable after_hello /\
  2 * 0 < List.length (transcript after_hello) /\
  exists u a,
    nth_error (transcript after_hello) (2 * 0) = Some u /\
    Message.role u = user /\
    nth_error (transcript after_hello) (2 * 0 + 1) = Some a /\
    Message.role a = assistant.
Proof.
  assert (Hw : reachable after_hello)
    by (apply reachable_run, reachable_start).
  assert (Hk : 2 * 0 < List.length (transcript after_hello))
    by (vm_compute; lia).
  split; [exact Hw | split; [exact Hk |]].
  exact (transcript_alternates after_hello 0 Hw Hk).
Defined.

(** ** Failed agent calls *)

(** C1: when the agent call fails no turn is recorded, the error is
    shown, and the output-token and processing-time counters keep their
    values; the input-token and cost counters, however, have already
    been charged for the utterance and are not restored.  Here on a
    fresh session with the utterance "hello world". *)
Theorem failed_call_charges_input :
  let before := mkworld sample_session [] [] in
  let after :=
    final (process_user_input failing_turn (lit "hello world") before) in
  transcript after = transcript before /\
  screen after
  = turn_opening (lit "hello world")
    ++ [Error (lit "Error invoking agent: service unavailable")] /\
  option_map total_output_tokens (session_state after)
  = option_map total_output_tokens (session_state before) /\
  option_map total_prompt_time (session_state after)
  = option_map total_prompt_time (session_state before) /\
  option_map total_input_tokens (session_state before) = Some 0 /\
  option_map total_input_tokens (session_state after) = Some 2 /\
  option_map total_cost (session_state before) = Some 0%float /\
  option_map total_cost (session_state after) = Some 0.0005%float.
Proof. vm_compute. repeat split; reflexivity. Qed.

(** ** Counters and per-turn values *)

Lemma turn_tokens_app (r : role) (msgs more : list Message.t) :
  turn_tokens r (msgs ++ more) = turn_tokens r msgs + turn_tokens r more.
Proof.
  unfold turn_tokens. now rewrite filter_app, map_app, list_sum_app.
Qed.

Lemma completed_turn_keeps_sums (env : turn_env) (prompt : str)
  (events : list event) (s : session) :
  reply (agent env) = Completed events ->
  located (Response.citations (received (agent env) events)) = true ->
  counters_match s -> counters_match (after_turn env prompt s).
Proof.
  intros Hreply Hloc (Hin & Hout & Hcost). unfold after_turn.
  rewrite Hreply, Hloc.
  unfold counters_match. cbn [messages total_cost total_input_tokens
                              total_output_tokens].
  rewrite !turn_tokens_app. unfold turn_costs. rewrite fold_left_app.
  fold (turn_costs (messages s)). rewrite <- Hin, <- Hout, <- Hcost.
  cbn. repeat split; lia.
Qed.

Lemma fresh_session_sums (uuid4 : str) (now : float) :
  counters_match (fresh_session uuid4 now).
Proof. repeat split. Qed.

(** As long as the agent calls complete and every reference carries
    an S3 URI, the counters stay equal to the sums of the per-turn
    values. *)
Lemma script_run_keeps_sums (inp : script_inputs) (w : world)
  (events : list event) :
  reply (agent (turn inp)) = Completed events ->
  located (Response.citations (received (agent (turn inp)) events)) = true ->
  sums_hold w -> sums_hold (script_run inp w).
Proof.
  intros Hreply Hloc Hw. unfold sums_hold in *. rewrite script_run_session.
  unfold after_script.
  assert (H0 : counters_match
                 match session_state w with
                 | Some s => s
                 | None => fresh_session (fresh_uuid4 inp) (init_clock inp)
                 end).
  { destruct (session_state w); [exact Hw | apply fresh_session_sums]. }
  destruct (reset_session inp); [apply fresh_session_sums|].
  destruct (chat_input inp) as [prompt|]; [|exact H0].
  destruct (truthy prompt); [|exact H0].
  now apply (completed_turn_keeps_sums _ _ events).
Qed.

(** C2: the counters do not equal the per-turn sums at all times.
    After a first exchange whose agent call failed, a reachable state
    has an empty transcript (all sums zero) while the input-token
    counter is 2 and the cost counter 0.0005. *)
Theorem failed_call_breaks_counter_sums :
  reachable after_failure /\
  exists s,
    session_state after_failure = Some s /\
    messages s = [] /\
    total_input_tokens s = 2 /\
    turn_tokens user (messages s) = 0 /\
    total_cost s = 0.0005%float /\
    turn_costs (messages s) = 0%float /\
    ~ counters_match s.
Proof.
  split; [apply reachable_run, reachable_start|].
  eexists. split; [vm_compute; reflexivity|].
  repeat split; try reflexivity.
  intros (Hin & _). vm_compute in Hin. discriminate.
Qed.

(** ** The assistant turn and its sources section *)

(** C3: for a response with at least one citation, each reference
    carrying its URI, the assistant content is the response text
    followed by the sources section: the header and one line
    "index. uri" per reference, citations numbered from 1 in the order
    received and a citation's index repeated for each of its
    references.  The section depends on the citation list alone.  For
    the citations [s3://a] and [s3://b, s3://c] the lines are
    "1. s3://a", "2. s3://b", "2. s3://c". *)
Theorem sources_section_lines :
  (forall (ts : timestamps) (text : str) (cit : citation)
          (cits : list citation) (tr : trace_dict) (t : float)
          (prompt : str) (input_tokens : nat) (input_cost : float)
          (s : session) (scr : list ui_action) (cs : list request),
      located (cit :: cits) = true ->
      map Message.content
          (transcript
             (final (process_agent_response ts
                       (Response.mk text (cit :: cits) tr t)
                       prompt input_tokens input_cost (mkworld s scr cs))))
      = map Message.content (messages s)
        ++ [prompt;
            text ++ with_lines (newline :: newline :: lit "**Sources:**")
                               (source_lines 1 (cit :: cits))]) /\
  source_lines 1 sample_citations
  = [lit "1. s3://a"; lit "2. s3://b"; lit "2. s3://c"] /\
  citation_text sample_citations
  = Some (newline :: newline :: lit "**Sources:**"
          ++ newline :: lit "1. s3://a"
          ++ newline :: lit "2. s3://b"
          ++ newline :: lit "2. s3://c").
Proof.
  split; [|split; reflexivity].
  intros ts text cit cits tr t prompt input_tokens input_cost s scr cs Hloc.
  assert (Htext : with_citations (Response.mk text (cit :: cits) tr t)
                  = Some (text ++ sources_section (cit :: cits))).
  { rewrite with_citations_section. cbn [Response.citations].
    now rewrite Hloc. }
  rewrite (process_agent_response_run _ _ _ _ _ _ _ _ _ Htext).
  cbn [final transcript mkworld session_state messages].
  rewrite map_app. reflexivity.
Qed.

Lemma sources_section_lines_witness :
  located sample_citations = true /\
  map Message.content
      (transcript
         (final (process_agent_response sample_stamps
                   (Response.mk (lit "hi there friend") sample_citations
                                [] 1.2%float)
                   (lit "hello world") 2 0.0005%float
                   (mkworld sample_session [] []))))
  = map Message.content (messages sample_session)
    ++ [lit "hello world";
        lit "hi there friend"
        ++ with_lines (newline :: newline :: lit "**Sources:**")
                      (source_lines 1 sample_citations)].
Proof.
  assert (H : located sample_citations = true) by reflexivity.
  split; [exact H|].
  exact (proj1 sources_section_lines sample_stamps (lit "hi there friend")
           _ _ [] 1.2%float (lit "hello world") 2 0.0005%float
           sample_session [] [] H).
Defined.

(** C4: a successful exchange, every reference of the response
    carrying its URI, appends the user turn and the assistant turn;
    the assistant content is the response text followed by the sources
    section (if any), while its token count and cost, and the amounts
    added to the counters, are those of the response text alone. *)
Theorem sources_text_not_charged (ts : timestamps) (r : Response.t)
  (prompt : str) (input_tokens : nat) (input_cost : float)
  (s : session) (scr : list ui_action) (cs : list request) :
  located (Response.citations r) = true ->
  let after :=
    final (process_agent_response ts r prompt input_tokens input_cost
             (mkworld s scr cs)) in
  let output_tokens := count_tokens (Response.output_text r) in
  let output_cost :=
    (float_of_nat output_tokens * COST_PER_OUTPUT_TOKEN)%float in
  transcript after
  = messages s ++
    [Message.mk user prompt
       (Metrics.mk input_tokens input_cost (user_timestamp ts) None None);
     Message.mk assistant
       (Response.output_text r ++ sources_section (Response.citations r))
       (Metrics.mk output_tokens output_cost (assistant_timestamp ts)
          (Some (Response.execution_time r))
          (Some (Response.trace r)))] /\
  option_map total_output_tokens (session_state after)
  = Some (total_output_tokens s + output_tokens) /\
  option_map total_cost (session_state after)
  = Some (total_cost s + output_cost)%float.
Proof.
  intros Hloc.
  assert (Htext : with_citations r
                  = Some (Response.output_text r
                          ++ sources_section (Response.citations r))).
  { rewrite with_citations_section. now rewrite Hloc. }
  cbv zeta. rewrite (process_agent_response_run _ _ _ _ _ _ _ _ _ Htext).
  cbn [final transcript mkworld session_state messages option_map
       total_output_tokens total_cost].
  auto.
Qed.

Lemma sources_text_not_charged_witness :
  located (Response.citations
             (Response.mk (lit "hi there friend") sample_citations
                          [] 1.2%float)) = true /\
  transcript
    (final (process_agent_response sample_stamps
              (Response.mk (lit "hi there friend") sample_citations
                           [] 1.2%float)
              (lit "hello world") 2 0.0005%float
              (mkworld sample_session [] [])))
  = messages sample_session ++
    [Message.mk user (lit "hello world")
       (Metrics.mk 2 0.0005%float (user_timestamp sample_stamps) None None);
     Message.mk assistant
       (lit "hi there friend" ++ sources_section sample_citations)
       (Metrics.mk 3 0.00075%float (assistant_timestamp sample_stamps)
          (Some 1.2%float) (Some []))] /\
  option_map total_output_tokens
    (session_state
       (final (process_agent_response sample_stamps
                 (Response.mk (lit "hi there friend") sample_citations
                              [] 1.2%float)
                 (lit "hello world") 2 0.0005%float
                 (mkworld sample_session [] []))))
  = Some (total_output_tokens sample_session + 3) /\
  option_map total_cost
    (session_state
       (final (process_agent_response sample_stamps
                 (Response.mk (lit "hi there friend") sample_citations
                              [] 1.2%float)
                 (lit "hello world") 2 0.0005%float
                 (mkworld sample_session [] []))))
  = Some (total_cost sample_session + 0.00075)%float.
Proof.
  assert (H : located (Response.citations
                         (Response.mk (lit "hi there friend")
                            sample_citations [] 1.2%float)) = true)
    by reflexivity.
  split; [exact H|].
  exact (sources_text_not_charged sample_stamps
           (Response.mk (lit "hi there friend") sample_citations
                        [] 1.2%float)
           (lit "hello world") 2 0.0005%float sample_session [] [] H).
Defined.

(** A response of three words with the sample citations: the stored
    content has ten words, three are charged. *)
Example cited_answer_charged_three_tokens :
  let r := received (agent answering_turn)
             [cited_event (lit "hi there friend") sample_citations] in
  let after :=
    final (process_agent_response sample_stamps r (lit "hello world")
             2 0.0005%float (mkworld sample_session [] [])) in
  map (fun m => (count_tokens (Message.content m),
                 Metrics.tokens (Message.metrics m)))
      (transcript after)
  = [(2, 2); (10, 3)] /\
  option_map total_output_tokens (session_state after) = Some 3.
Proof. vm_compute. split; reflexivity. Qed.

(** C10: when the citation list is not empty and no citation has a
    retrieved reference, the assistant content is the response text
    followed by the bare header; with an empty citation list it is the
    response text alone. *)
Theorem header_without_references (ts : timestamps) (text : str)
  (cit : citation) (cits : list citation) (tr : trace_dict) (t : float)
  (prompt : str) (input_tokens : nat) (input_cost : float)
  (s : session) (scr : list ui_action) (cs : list request) :
  Forall (fun c => retrievedReferences c = []) (cit :: cits) ->
  map Message.content
      (transcript
         (final (process_agent_response ts
                   (Response.mk text (cit :: cits) tr t)
                   prompt input_tokens input_cost (mkworld s scr cs))))
  = map Message.content (messages s)
    ++ [prompt; text ++ newline :: newline :: lit "**Sources:**"] /\
  map Message.content
      (transcript
         (final (process_agent_response ts
                   (Response.mk text [] tr t)
                   prompt input_tokens input_cost (mkworld s scr cs))))
  = map Message.content (messages s) ++ [prompt; text].
Proof.
  intros Hempty.
  assert (Hlines : forall first l,
             Forall (fun c => retrievedReferences c = []) l ->
             source_lines first l = [] /\ located l = true).
  { intros first l Hl. revert first.
    induction Hl as [|c l Hc _ IH]; intros first; cbn; [auto|].
    destruct (IH (S first)) as [IHlines IHloc].
    fold (located l). now rewrite Hc, IHlines, IHloc. }
  destruct (Hlines 1 _ Hempty) as [Hnone Hloc].
  assert (Hcited : with_citations (Response.mk text (cit :: cits) tr t)
                   = Some (text ++ newline :: newline
                                :: lit "**Sources:**")).
  { rewrite with_citations_section.
    cbn [Response.citations Response.output_text sources_section].
    rewrite Hloc, Hnone. unfold with_lines, sources_header. cbn.
    now rewrite app_nil_r. }
  assert (Hbare : with_citations (Response.mk text [] tr t) = Some text)
    by reflexivity.
  rewrite (process_agent_response_run _ _ _ _ _ _ _ _ _ Hcited).
  rewrite (process_agent_response_run _ _ _ _ _ _ _ _ _ Hbare).
  cbn [final transcript mkworld session_state messages].
  rewrite !map_app. split; reflexivity.
Qed.

Lemma header_without_references_witness :
  Forall (fun c => retrievedReferences c = [])
         [{| retrievedReferences := [] |}; {| retrievedReferences := [] |}] /\
  map Message.content
      (transcript
         (final (process_agent_response sample_stamps
                   (Response.mk (lit "hi there friend")
                      [{| retrievedReferences := [] |};
                       {| retrievedReferences := [] |}] [] 1.2%float)
                   (lit "hello world") 2 0.0005%float
                   (mkworld sample_session [] []))))
  = map Message.content (messages sample_session)
    ++ [lit "hello world";
        lit "hi there friend" ++ newline :: newline :: lit "**Sources:**"] /\
  map Message.content
      (transcript
         (final (process_agent_response sample_stamps
                   (Response.mk (lit "hi there friend") [] [] 1.2%float)
                   (lit "hello world") 2 0.0005%float
                   (mkworld sample_session [] []))))
  = map Message.content (messages sample_session)
    ++ [lit "hello world"; lit "hi there friend"].
Proof.
  assert (H : Forall (fun c => retrievedReferences c = [])
                [{| retrievedReferences := [] |};
                 {| retrievedReferences := [] |}])
    by (repeat constructor).
  split; [exact H|].
  exact (header_without_references sample_stamps
           (lit "hi there friend") _ _ [] 1.2%float
           (lit "hello world") 2 0.0005%float sample_session [] [] H).
Defined.

(** ** Initialisation and reset *)

(** ** Initialisation and reset *)

(** C8: on an empty store [init_state] sets the given fresh
    identifier, an empty transcript, zero counters and the start time;
    on an initialised store it changes nothing, so running it twice is
    the same as running it once. *)
Theorem init_state_idempotent :
  (forall (uuid4 : str) (now : float) (scr : list ui_action)
          (cs : list request),
      init_state uuid4 now
        {| session_state := None; screen := scr; calls := cs |}
      = Ok tt
          (mkworld
             {| session_id := uuid4;
                messages := [];
                citations := [];
                trace := [];
                total_cost := 0%float;
                total_input_tokens := 0;
                total_output_tokens := 0;
                session_start_time := now;
                total_prompt_time := 0%float |}
             scr cs)) /\
  (forall (uuid4 : str) (now : float) (s : session)
          (scr : list ui_action) (cs : list request),
      init_state uuid4 now (mkworld s scr cs) = Ok tt (mkworld s scr cs)) /\
  (forall (uuid4 uuid4' : str) (now now' : float) (w : world),
      (init_state uuid4 now ;; init_state uuid4' now') w
      = init_state uuid4 now w).
Proof.
  repeat split.
  intros uuid4 uuid4' now now' [[s|] scr cs]; reflexivity.
Qed.

(** A script run in which the reset button is pressed leaves a fresh
    session, whatever the store held. *)
Lemma script_run_reset (inp : script_inputs) (w : world) :
  reset_session inp = true ->
  session_state (script_run inp w)
  = Some (fresh_session (reset_uuid4 inp) (reset_clock inp)).
Proof.
  intros Hreset. rewrite script_run_session. unfold after_script.
  now rewrite Hreset.
Qed.

(** C6: whatever the store holds, a run of the script in which "Reset
    Session" is pressed leaves a fresh session: the handler clears the
    store, runs [init_state] again and asks for a rerun.  On the fresh
    session the transcript is empty and the panel shows zero input
    tokens, output tokens, total tokens, cost and processing time;
    showing the panel changes no session variable. *)
Theorem reset_then_snapshot :
  (forall (inp : script_inputs) (w : world),
      session_state (script_run (press_reset inp) w)
      = Some (fresh_session (reset_uuid4 inp) (reset_clock inp))) /\
  (forall (s : session) (scr : list ui_action) (cs : list request)
          (now clock : float) (uuid4 : str),
      render_session_analytics now true uuid4 clock (mkworld s scr cs)
      = Raise RerunException
          (mkworld (fresh_session uuid4 clock)
                   (scr ++ metrics_panel now s) cs)) /\
  (forall (uuid4 uuid4' : str) (clock now' clock' : float)
          (scr : list ui_action) (cs : list request),
      let w1 := mkworld (fresh_session uuid4 clock) scr cs in
      transcript w1 = [] /\
      option_map total_input_tokens (session_state w1) = Some 0 /\
      option_map total_output_tokens (session_state w1) = Some 0 /\
      option_map total_cost (session_state w1) = Some 0%float /\
      option_map total_prompt_time (session_state w1) = Some 0%float /\
      render_session_analytics now' false uuid4' clock' w1
      = Ok tt
          (mkworld (fresh_session uuid4 clock)
             (scr ++
              [Metric (lit "Session Duration") [HMS (now' - clock)%float];
               Metric (lit "Total Input Tokens") [Int 0];
               Metric (lit "Total Output Tokens") [Int 0];
               Metric (lit "Total Tokens") [Int 0];
               Metric (lit "Total Cost ($)") [Fixed 4 0%float];
               Metric (lit "Total Processing Time") [HMS 0%float];
               Button (lit "Reset Session")])
             cs)).
Proof.
  split; [|split].
  - intros inp w. now rewrite script_run_reset.
  - intros. apply render_session_analytics_reset.
  - intros uuid4 uuid4' clock now' clock' scr cs w1. subst w1.
    rewrite render_session_analytics_run. repeat split.
Qed.

(** ** Empty input *)

(** C9: submitting the empty text does nothing, because
    the chat panel does not start the turn processor for it: the panel
    draws the transcript and the input box, no request goes to the
    agent, and the session variables (transcript and counters) keep
    their values. *)
Theorem empty_input_is_noop (env : turn_env) :
  (forall w : world,
      session_state (final (render_chat_interface (Some []) env w))
      = session_state w /\
      calls (final (render_chat_interface (Some []) env w)) = calls w) /\
  (forall (s : session) (scr : list ui_action) (cs : list request),
      render_chat_interface (Some []) env (mkworld s scr cs)
      = Ok tt (mkworld s
                 (scr ++ transcript_view (messages s)
                      ++ [ChatInput (lit "Enter your message")])
                 cs)).
Proof.
  split.
  - intros [[s|] scr cs].
    + fold_world. rewrite render_chat_interface_run. split; reflexivity.
    + split; reflexivity.
  - intros. now rewrite render_chat_interface_run.
Qed.

(** The turn processor itself has no guard: given the empty text on a
    fresh session, [process_user_input] sends a request with that
    text, records two turns and charges the three tokens of the
    answer. *)
Lemma empty_input_reaches_agent :
  calls (final (process_user_input answering_turn []
                  (mkworld sample_session [] [])))
  = [{| agentId := AGENT_ID;
        agentAliasId := AGENT_ALIAS_ID;
        enableTrace := true;
        sessionId := session_id sample_session;
        inputText := [] |}] /\
  List.length
    (transcript (final (process_user_input answering_turn []
                          (mkworld sample_session [] [])))) = 2 /\
  option_map total_output_tokens
    (session_state (final (process_user_input answering_turn []
                             (mkworld sample_session [] [])))) = Some 3 /\
  ~ (calls (final (process_user_input answering_turn []
                     (mkworld sample_session [] [])))
     = calls (mkworld sample_session [] []) /\
     transcript (final (process_user_input answering_turn []
                          (mkworld sample_session [] [])))
     = transcript (mkworld sample_session [] [])).
Proof.
  repeat split; try (vm_compute; reflexivity).
  intros [Hcalls _]. vm_compute in Hcalls. discriminate.
Qed.

(** ** Token and cost estimates *)

(** C7: the token estimate of a text is its number of
    whitespace-separated tokens; the user turn and the assistant turn
    of an exchange (its references carrying their URIs) cost their
    token count times the per-token rate, which is 0.00025 for both.
    For "hello world" answered by "hi there friend" on a fresh session
    the input cost is 0.0005, the output cost 0.00075, and afterwards
    the total tokens are 5 and the total cost 0.00125. *)
Theorem token_and_cost_estimates :
  (forall text : str,
      count_tokens text = whitespace_separated_tokens text) /\
  (forall (prompt : str) (events : list event) (t0 t1 : float)
          (ts : timestamps) (s : session) (scr : list ui_action)
          (cs : list request),
      located (snd (fst (read_completion events))) = true ->
      let env := {| agent := {| start_clock := t0;
                                reply := Completed events;
                                end_clock := t1 |};
                    stamps := ts |} in
      let text := fst (fst (read_completion events)) in
      map (fun m => (Message.role m,
                     Metrics.tokens (Message.metrics m),
                     Metrics.cost (Message.metrics m)))
          (transcript (final (process_user_input env prompt
                                (mkworld s scr cs))))
      = map (fun m => (Message.role m,
                       Metrics.tokens (Message.metrics m),
                       Metrics.cost (Message.metrics m)))
            (messages s)
        ++ [(user, count_tokens prompt,
             (float_of_nat (count_tokens prompt) * 0.00025)%float);
            (assistant, count_tokens text,
             (float_of_nat (count_tokens text) * 0.00025)%float)]) /\
  COST_PER_INPUT_TOKEN = COST_PER_OUTPUT_TOKEN /\
  (count_tokens (lit "hello world") = 2 /\
   count_tokens (lit "hi there friend") = 3 /\
   map (fun m => Metrics.cost (Message.metrics m)) (transcript after_hello)
   = [0.0005%float; 0.00075%float] /\
   option_map (fun s => total_input_tokens s + total_output_tokens s)
              (session_state after_hello) = Some 5 /\
   option_map total_cost (session_state after_hello)
   = Some 0.00125%float /\
   option_map total_prompt_time (session_state after_hello)
   = Some 1.2%float).
Proof.
  split; [exact count_tokens_spec|].
  split; [|split; [reflexivity | vm_compute; repeat split; reflexivity]].
  intros prompt events t0 t1 ts s scr cs Hloc env text. subst env text.
  assert (Hloc' : located
                    (Response.citations
                       (received {| start_clock := t0;
                                    reply := Completed events;
                                    end_clock := t1 |} events)) = true).
  { unfold received.
    destruct (read_completion events) as [[output_text cits] tr].
    exact Hloc. }
  rewrite (process_user_input_completed _ _ events) by
    (reflexivity || exact Hloc').
  cbn [final transcript mkworld session_state messages].
  rewrite map_app. unfold received.
  destruct (read_completion events) as [[output_text cits] tr].
  reflexivity.
Qed.

Lemma token_and_cost_estimates_witness :
  located (snd (fst (read_completion [text_event (lit "hi there friend")])))
  = true /\
  map (fun m => (Message.role m,
                 Metrics.tokens (Message.metrics m),
                 Metrics.cost (Message.metrics m)))
      (transcript (final (process_user_input answering_turn
                            (lit "hello world")
                            (mkworld sample_session [] []))))
  = map (fun m => (Message.role m,
                   Metrics.tokens (Message.metrics m),
                   Metrics.cost (Message.metrics m)))
        (messages sample_session)
    ++ [(user, 2, 0.0005%float); (assistant, 3, 0.00075%float)].
Proof.
  assert (H : located
                (snd (fst (read_completion
                             [text_event (lit "hi there friend")])))
              = true) by reflexivity.
  split; [exact H|].
  exact (proj1 (proj2 token_and_cost_estimates) (lit "hello world")
           [text_event (lit "hi there friend")] 0%float 1.2%float
           sample_stamps sample_session [] [] H).
Defined.
(** ** Runs of the script, in full *)

Lemma after_script_opened (inp : script_inputs) (st : option session) :
  reset_session inp = false ->
  after_script inp st
  = match submitted inp with
    | Some prompt => after_turn (turn inp) prompt (opened inp st)
    | None => opened inp st
    end.
Proof.
  intros Hreset. unfold after_script, submitted, opened. rewrite Hreset.
  destruct (chat_input inp) as [prompt|]; [destruct (truthy prompt)|];
    reflexivity.
Qed.

Lemma init_state_opened (inp : script_inputs) (st : option session)
  (scr : list ui_action) (cs : list request) :
  init_state (fresh_uuid4 inp) (init_clock inp)
    {| session_state := st; screen := scr; calls := cs |}
  = Ok tt (mkworld (opened inp st) scr cs).
Proof. destruct st; reflexivity. Qed.

Lemma main_run (inp : script_inputs) (st : option session)
  (scr : list ui_action) (cs : list request) :
  reset_session inp = false ->
  main inp {| session_state := st; screen := scr; calls := cs |}
  = match run_exception inp with
    | Some e =>
        Raise e
          (mkworld (after_script inp st)
                   (scr ++ page inp (opened inp st))
                   (cs ++ run_calls inp (opened inp st)))
    | None =>
        render_pairs (view_raw_trace inp) 1
          (messages (after_script inp st))
          (mkworld (after_script inp st)
                   (scr ++ page inp (opened inp st))
                   (cs ++ run_calls inp (opened inp st)))
    end.
Proof.
  intros Hreset. rewrite (after_script_opened _ _ Hreset).
  unfold main. unfold bind at 1 2. cbn [emit session_state screen calls].
  rewrite init_state_opened. unfold bind at 1 2 3 4 5.
  cbn [emit mkworld session_state screen calls]. fold_world.
  rewrite Hreset, render_session_analytics_run.
  unfold bind at 1 2 3.
  cbn [emit mkworld session_state screen calls]. fold_world.
  rewrite render_chat_interface_run. cbv zeta.
  unfold page, run_calls, run_exception, submitted.
  destruct (chat_input inp) as [prompt|]; [destruct (truthy prompt)|].
  - rewrite process_user_input_run.
    destruct (turn_exception (turn inp)) as [e|]; cbn [ended].
    + rewrite <- !app_assoc, app_nil_r. reflexivity.
    + unfold bind, render_prompt_analytics. cbn.
      rewrite <- !app_assoc. reflexivity.
  - unfold bind, render_prompt_analytics. cbn.
    rewrite <- ?app_assoc, ?app_nil_r. reflexivity.
  - unfold bind, render_prompt_analytics. cbn.
    rewrite <- ?app_assoc, ?app_nil_r. reflexivity.
Qed.

Lemma main_reset (inp : script_inputs) (st : option session)
  (scr : list ui_action) (cs : list request) :
  reset_session inp = true ->
  main inp {| session_state := st; screen := scr; calls := cs |}
  = Raise RerunException
      (mkworld (fresh_session (reset_uuid4 inp) (reset_clock inp))
         (scr ++ [Css; Container; Columns 3; Column 0;
                  Title (lit "Session Analytics")]
              ++ metrics_panel (analytics_clock inp) (opened inp st))
         cs).
Proof.
  intros Hreset.
  unfold main. unfold bind at 1 2. cbn [emit session_state screen calls].
  rewrite init_state_opened. unfold bind at 1 2 3 4 5.
  cbn [emit mkworld session_state screen calls]. fold_world.
  rewrite Hreset, render_session_analytics_reset.
  rewrite <- !app_assoc. reflexivity.
Qed.

(** ** The prompt analytics panel *)

Lemma render_pairs_outcome (view : nat -> bool) (msgs : list Message.t) :
  forall (number : nat) (w : world),
    (exists w', render_pairs view number msgs w = Ok tt w') \/
    (pairs_answered msgs = false /\
     exists w', render_pairs view number msgs w = Raise KeyError w').
Proof.
  induction msgs as [|m|u a rest IH] using pairs_ind; intros number w.
  - left. eexists. reflexivity.
  - left. eexists. reflexivity.
  - cbn [render_pairs pairs_answered]. unfold answered, bind. cbn.
    destruct (Metrics.execution_time (Message.metrics a)) as [t|]; cbn;
      [|right; split; [reflexivity | eexists; reflexivity]].
    destruct (Metrics.trace (Message.metrics a)) as [tr|]; cbn.
    + destruct (view number); cbn; apply IH.
    + destruct (view number); cbn.
      * right. split; [reflexivity | eexists; reflexivity].
      * match goal with |- context [render_pairs view ?n rest ?w0] =>
          destruct (IH n w0) as [[w' E]|[Hna [w' E]]] end.
        -- left. eauto.
        -- right. split; [reflexivity | eauto].
Qed.

Lemma render_pairs_answered (view : nat -> bool) (msgs : list Message.t)
  (number : nat) (w : world) :
  pairs_answered msgs = true ->
  exists w', render_pairs view number msgs w = Ok tt w'.
Proof.
  intros Hans.
  destruct (render_pairs_outcome view msgs number w) as [H|[Hna _]];
    [exact H | congruence].
Qed.

(** ** More on the token estimate *)

Lemma token_starts_blank (text : str) :
  token_starts true text = 0 <-> forallb isspace text = true.
Proof.
  induction text as [|c rest IH]; cbn.
  - tauto.
  - destruct (isspace c); cbn.
    + exact IH.
    + split; [lia | discriminate].
Qed.

Lemma token_starts_join (a rest : str) (c : char) (after_space : bool) :
  isspace c = true ->
  token_starts after_space (a ++ c :: rest)
  = token_starts after_space a + token_starts true rest.
Proof.
  intros Hc. revert after_space.
  induction a as [|d a IH]; intros after_space; cbn.
  - rewrite Hc. cbn. now rewrite andb_false_r.
  - rewrite IH. lia.
Qed.

Lemma token_starts_bound (text : str) (after_space : bool) :
  2 * token_starts after_space text
  <= List.length text + (if after_space then 1 else 0).
Proof.
  revert after_space.
  induction text as [|c rest IH]; intros after_space; cbn [token_starts].
  - cbn. lia.
  - specialize (IH (isspace c)). cbn [List.length].
    destruct after_space, (isspace c); cbn in *; lia.
Qed.

(** X1: a text has no token exactly when it consists of whitespace
    only (the empty text included). *)
Theorem count_tokens_zero_iff_blank (text : str) :
  count_tokens text = 0 <-> forallb isspace text = true.
Proof. rewrite count_tokens_spec. apply token_starts_blank. Qed.

(** X2: the estimate is additive over a whitespace character: the
    tokens of [a], a whitespace character and [b] are those of [a] and
    those of [b]. *)
Theorem count_tokens_join (a b : str) (c : char) :
  isspace c = true ->
  count_tokens (a ++ c :: b) = count_tokens a + count_tokens b.
Proof.
  intros Hc. rewrite !count_tokens_spec.
  unfold whitespace_separated_tokens. now apply token_starts_join.
Qed.

Lemma count_tokens_join_witness :
  isspace 32%N = true /\
  count_tokens (lit "hello world" ++ 32%N :: lit "hi there friend")
  = count_tokens (lit "hello world") + count_tokens (lit "hi there friend").
Proof.
  split; [reflexivity|].
  apply (count_tokens_join (lit "hello world") (lit "hi there friend") 32%N).
  reflexivity.
Defined.

(** X3: a text of [n] characters has at most [(n + 1) / 2] tokens. *)
Theorem count_tokens_bound (text : str) :
  2 * count_tokens text <= List.length text + 1.
Proof.
  rewrite count_tokens_spec. exact (token_starts_bound text true).
Qed.

(** ** Reading the completion stream *)

Lemma absorb_event_text (ev : event) (o : str) (c : list citation)
  (tr : trace_dict) :
  fst (fst (absorb_event (o, c, tr) ev)) = o ++ event_text ev
  /\ snd (fst (absorb_event (o, c, tr) ev)) = c ++ event_citations ev.
Proof.
  unfold absorb_event, event_text, event_citations.
  destruct (ev_chunk ev) as [ch|]; [destruct (attribution ch)|];
    cbn; rewrite ?app_nil_r; auto.
Qed.

Lemma absorb_events_text (events : list event) :
  forall (o : str) (c : list citation) (tr : trace_dict),
    fst (fst (fold_left absorb_event events (o, c, tr)))
    = o ++ List.concat (map event_text events)
    /\ snd (fst (fold_left absorb_event events (o, c, tr)))
       = c ++ List.concat (map event_citations events).
Proof.
  induction events as [|ev events IH]; intros o c tr; cbn [fold_left map].
  - cbn. now rewrite !app_nil_r.
  - destruct (absorb_event_text ev o c tr) as [Ho Hc].
    destruct (absorb_event (o, c, tr) ev) as [[o' c'] tr'].
    cbn [fst snd] in Ho, Hc. subst o' c'.
    destruct (IH (o ++ event_text ev) (c ++ event_citations ev) tr')
      as [IHo IHc].
    rewrite IHo, IHc. cbn [List.concat]. now rewrite <- !app_assoc.
Qed.

Lemma trace_type_eqb_eq (a b : trace_type) :
  trace_type_eqb a b = true <-> a = b.
Proof. destruct a, b; cbn; split; congruence. Qed.

Lemma trace_get_append (t t' : trace_type) (x : json) (tr : trace_dict) :
  trace_get t (trace_append t' x tr)
  = if trace_type_eqb t t' then trace_get t tr ++ [x] else trace_get t tr.
Proof.
  induction tr as [|[k xs] tr IH]; cbn.
  - destruct (trace_type_eqb t t'); reflexivity.
  - destruct (trace_type_eqb t' k) eqn:Ek; cbn.
    + apply trace_type_eqb_eq in Ek. subst k.
      destruct (trace_type_eqb t t'); reflexivity.
    + rewrite IH. destruct (trace_type_eqb t k) eqn:Etk; [|reflexivity].
      apply trace_type_eqb_eq in Etk. subst k.
      destruct (trace_type_eqb t t') eqn:Ett; [|reflexivity].
      apply trace_type_eqb_eq in Ett. subst t'.
      destruct t; discriminate.
Qed.

Lemma trace_append_keys (t : trace_type) (x : json) (tr : trace_dict)
  (k : trace_type) :
  In k (map fst (trace_append t x tr)) -> k = t \/ In k (map fst tr).
Proof.
  induction tr as [|[k' xs] tr IH]; cbn.
  - intros [H|[]]; auto.
  - destruct (trace_type_eqb t k'); cbn; [tauto|].
    intros [H|H]; [auto | destruct (IH H); auto].
Qed.

Lemma trace_append_nodup (t : trace_type) (x : json) (tr : trace_dict) :
  NoDup (map fst tr) -> NoDup (map fst (trace_append t x tr)).
Proof.
  induction tr as [|[k xs] tr IH]; cbn; intros Hnd.
  - repeat constructor. intros [].
  - destruct (trace_type_eqb t k) eqn:Ek; cbn; [exact Hnd|].
    inversion Hnd as [|? ? Hk Htr]; subst.
    constructor; [|now apply IH].
    intros Hin. destruct (trace_append_keys _ _ _ _ Hin) as [H|H];
      [|contradiction].
    subst k. destruct t; discriminate.
Qed.

Lemma absorb_event_trace (ev : event) (o : str) (c : list citation)
  (tr : trace_dict) :
  (forall t, trace_get t (snd (absorb_event (o, c, tr) ev))
             = trace_get t tr ++ event_records t ev)
  /\ (NoDup (map fst tr) ->
      NoDup (map fst (snd (absorb_event (o, c, tr) ev)))).
Proof.
  unfold absorb_event, event_records.
  destruct (ev_chunk ev) as [ch|]; cbn [snd];
    (destruct (ev_trace ev) as [parts|];
     [| split; [intros t; now rewrite app_nil_r | auto]]);
    cbn [fold_left];
    (split;
     [ intros t;
       destruct (parts preProcessingTrace) eqn:E1,
         (parts orchestrationTrace) eqn:E2,
         (parts postProcessingTrace) eqn:E3;
       rewrite ?trace_get_append; destruct t; cbn;
       rewrite ?E1, ?E2, ?E3, <- ?app_assoc, ?app_nil_r; reflexivity
     | intros Hnd;
       destruct (parts preProcessingTrace), (parts orchestrationTrace),
         (parts postProcessingTrace);
       repeat apply trace_append_nodup; exact Hnd ]).
Qed.

Lemma absorb_events_trace (events : list event) :
  forall (o : str) (c : list citation) (tr : trace_dict),
    (forall t, trace_get t (snd (fold_left absorb_event events (o, c, tr)))
               = trace_get t tr
                 ++ List.concat (map (event_records t) events))
    /\ (NoDup (map fst tr) ->
        NoDup (map fst (snd (fold_left absorb_event events (o, c, tr))))).
Proof.
  induction events as [|ev events IH]; intros o c tr; cbn [fold_left map].
  - split; [intros t; cbn; now rewrite app_nil_r | auto].
  - destruct (absorb_event (o, c, tr) ev) as [[o' c'] tr'] eqn:E.
    destruct (absorb_event_trace ev o c tr) as [Hget Hnd].
    rewrite E in Hget, Hnd. cbn [snd] in Hget, Hnd.
    destruct (IH o' c' tr') as [IHget IHnd].
    split.
    + intros t. rewrite IHget, Hget. cbn [List.concat].
      now rewrite app_assoc.
    + auto.
Qed.

(** ** [invoke_agent] *)

(** X4: a call whose stream completes returns the chunk texts
    concatenated in arrival order, the citations of all chunks
    concatenated in arrival order, and the time between the two clock
    readings; it changes no session variable other than
    [total_prompt_time], which grows by that time.  A call that raises
    [ClientError] returns [None], shows "Error invoking agent: "
    followed by the message and changes no session variable.  Either
    way one request is made, with the session identifier and the
    prompt. *)
Theorem invoke_agent_effects (t0 t1 : float) (prompt : str)
  (s : session) (scr : list ui_action) (cs : list request) :
  let sent :=
    cs ++ [{| agentId := AGENT_ID;
              agentAliasId := AGENT_ALIAS_ID;
              enableTrace := true;
              sessionId := session_id s;
              inputText := prompt |}] in
  (forall events : list event,
      exists r,
        invoke_agent {| start_clock := t0; reply := Completed events;
                        end_clock := t1 |} prompt (mkworld s scr cs)
        = Ok (Some r)
             (mkworld
                (set_total_prompt_time
                   (total_prompt_time s + (t1 - t0))%float s)
                scr sent) /\
        Response.output_text r = List.concat (map event_text events) /\
        Response.citations r = List.concat (map event_citations events) /\
        Response.execution_time r = (t1 - t0)%float) /\
  (forall message : str,
      invoke_agent {| start_clock := t0; reply := Failed message;
                      end_clock := t1 |} prompt (mkworld s scr cs)
      = Ok None
           (mkworld s
              (scr ++ [Error (lit "Error invoking agent: " ++ message)])
              sent)).
Proof.
  cbv zeta. split; [|reflexivity].
  intros events.
  assert (Ho : fst (fst (read_completion events))
               = List.concat (map event_text events))
    by exact (proj1 (absorb_events_text events [] [] [])).
  assert (Hc : snd (fst (read_completion events))
               = List.concat (map event_citations events))
    by exact (proj2 (absorb_events_text events [] [] [])).
  unfold invoke_agent, bind, mkworld.
  cbn [read call_agent session_state screen calls reply start_clock
       end_clock].
  destruct (read_completion events) as [[o c] tr].
  cbn in Ho, Hc. subst o c. cbn. eexists. split; [reflexivity|].
  cbn. auto.
Qed.

(** X5: the trace a completed call returns holds, under each trace
    type, the records of that type in arrival order, and no trace
    type twice. *)
Theorem invoke_agent_trace (t0 t1 : float) (events : list event)
  (prompt : str) (s : session) (scr : list ui_action) (cs : list request) :
  exists r w',
    invoke_agent {| start_clock := t0; reply := Completed events;
                    end_clock := t1 |} prompt (mkworld s scr cs)
    = Ok (Some r) w' /\
    (forall t, trace_get t (Response.trace r)
               = List.concat (map (event_records t) events)) /\
    NoDup (map fst (Response.trace r)).
Proof.
  assert (Hget : forall t,
             trace_get t (snd (read_completion events))
             = List.concat (map (event_records t) events))
    by exact (proj1 (absorb_events_trace events [] [] [])).
  assert (Hnd : NoDup (map fst (snd (read_completion events))))
    by (apply (proj2 (absorb_events_trace events [] [] [])); constructor).
  unfold invoke_agent, bind, mkworld.
  cbn [read call_agent session_state screen calls reply start_clock
       end_clock].
  destruct (read_completion events) as [[o c] tr].
  cbn [snd] in Hget, Hnd. cbn. do 2 eexists. split; [reflexivity|].
  cbn. split; [exact Hget | exact Hnd].
Qed.

(** ** Before [init_state] *)

(** On a store that [init_state] has not filled, every function that
    reads a session variable raises [AttributeError] at its first
    access: nothing has been drawn, no request made and the store is
    still empty. *)
Remark empty_store_raises (scr : list ui_action) (cs : list request) :
  let w := {| session_state := None; screen := scr; calls := cs |} in
  (forall env prompt, process_user_input env prompt w
                      = Raise AttributeError w) /\
  (forall ts r prompt n c,
      process_agent_response ts r prompt n c w = Raise AttributeError w) /\
  (forall ts prompt text n m c d r,
      store_messages ts prompt text n m c d r w = Raise AttributeError w) /\
  (forall now pressed uuid4 clock,
      render_session_analytics now pressed uuid4 clock w
      = Raise AttributeError w) /\
  (forall text env,
      render_chat_interface text env w = Raise AttributeError w) /\
  (forall view, render_prompt_analytics view w = Raise AttributeError w).
Proof. repeat split. Qed.

(** ** How a run of the script ends *)

Lemma run_exception_cases (inp : script_inputs) (e : exn) :
  run_exception inp = Some e ->
  e = KeyError \/ exists exception, e = Uncaught exception.
Proof.
  unfold run_exception, turn_exception.
  destruct (submitted inp); [|discriminate].
  destruct (reply (agent (turn inp))) as [message|events|x|x];
    [discriminate
    | destruct (located _); [discriminate|]
    | |];
    intros [= <-]; eauto.
Qed.

(** X6: [main] never ends with [AttributeError], whatever the store
    holds, since it runs [init_state] before anything reads a session
    variable; and it ends by the rerun request when "Reset Session" is
    pressed, and only then. *)
Theorem main_outcomes (inp : script_inputs) (w : world) :
  match main inp w with
  | Raise AttributeError _ => False
  | Raise RerunException _ => reset_session inp = true
  | _ => reset_session inp = false
  end.
Proof.
  destruct w as [st scr cs].
  destruct (reset_session inp) eqn:Hreset.
  - now rewrite (main_reset _ _ _ _ Hreset).
  - rewrite (main_run _ _ _ _ Hreset).
    destruct (run_exception inp) as [e|] eqn:He.
    + destruct (run_exception_cases _ _ He) as [->|[x ->]]; reflexivity.
    + match goal with |- context [render_pairs ?v ?n ?msgs ?w0] =>
        destruct (render_pairs_outcome v msgs n w0)
          as [[w' E]|[Hna [w' E]]];
        rewrite E
      end; reflexivity.
Qed.

Lemma pairs_answered_app (msgs : list Message.t) (u a : Message.t) :
  paired msgs -> pairs_answered msgs = true -> answered a = true ->
  pairs_answered (msgs ++ [u; a]) = true.
Proof.
  intros Hp Hans Ha.
  induction msgs as [|m|u' a' rest IH] using pairs_ind;
    cbn in *.
  - now rewrite Ha.
  - contradiction.
  - apply andb_true_iff in Hans. destruct Hans as [Ha' Hrest].
    destruct Hp as (_ & _ & Hp). rewrite Ha'. cbn. now apply IH.
Qed.

Lemma after_script_answered (inp : script_inputs) (st : option session) :
  match st with
  | Some s => paired (messages s) /\ pairs_answered (messages s) = true
  | None => True
  end ->
  pairs_answered (messages (after_script inp st)) = true.
Proof.
  intros Hst. unfold after_script.
  assert (H0 : paired (messages (opened inp st))
               /\ pairs_answered (messages (opened inp st)) = true).
  { destruct st; [exact Hst | split; [exact I | reflexivity]]. }
  fold (opened inp st).
  destruct (reset_session inp); [reflexivity|].
  destruct (chat_input inp) as [prompt|]; [|apply H0].
  destruct (truthy prompt); [|apply H0].
  unfold after_turn.
  destruct (reply (agent (turn inp))) as [message|events|e|e];
    [| destruct (located _) | |];
    cbn [messages]; try apply H0.
  apply pairs_answered_app; [apply H0 | apply H0 | reflexivity].
Qed.

Lemma reachable_answered (w : world) :
  reachable w -> pairs_answered (transcript w) = true.
Proof.
  induction 1 as [|inp w Hw IH].
  - reflexivity.
  - pose proof (reachable_paired w Hw) as Hp.
    unfold transcript in *. rewrite script_run_session.
    apply after_script_answered.
    destruct (session_state w); auto.
Qed.

(** X7: in every reachable state with an initialised store the prompt
    analytics panel ends normally, whichever "View Raw Trace" button
    is pressed: the second message of every stored pair carries the
    execution time and the trace the panel reads.  This holds after
    failed agent calls, exchanges ended by an exception, and resets. *)
Theorem reachable_prompt_analytics_runs (view : nat -> bool) (w : world) :
  reachable w ->
  session_state w <> None ->
  exists w', render_prompt_analytics view w = Ok tt w'.
Proof.
  intros Hw Hinit.
  pose proof (reachable_answered w Hw) as Hans. unfold transcript in Hans.
  destruct w as [[s|] scr cs]; [|exfalso; apply Hinit; reflexivity].
  cbn in Hans.
  unfold render_prompt_analytics, bind. cbn.
  now apply render_pairs_answered.
Qed.

Lemma reachable_prompt_analytics_runs_witness :
  reachable after_hello /\
  session_state after_hello <> None /\
  exists w', render_prompt_analytics (fun _ => true) after_hello = Ok tt w'.
Proof.
  assert (Hw : reachable after_hello)
    by (apply reachable_run, reachable_start).
  assert (Hinit : session_state after_hello <> None)
    by (vm_compute; discriminate).
  split; [exact Hw | split; [exact Hinit|]].
  exact (reachable_prompt_analytics_runs (fun _ => true) after_hello
           Hw Hinit).
Defined.

(** ** Requests *)

Lemma script_run_calls (inp : script_inputs) (w : world) :
  reset_session inp = false ->
  calls (script_run inp w)
  = calls w ++ run_calls inp (opened inp (session_state w)).
Proof.
  intros Hreset. unfold script_run. rewrite (main_run _ _ _ _ Hreset).
  destruct (run_exception inp); [reflexivity|].
  now rewrite (proj2 (render_pairs_frame _ _ _ _)).
Qed.

(** X8: a run of the script makes at most one request to the agent:
    none when "Reset Session" is pressed, when nothing or the empty
    text is submitted, or when the agent client cannot be built, and
    otherwise exactly one, carrying the session identifier and the
    submitted text.  A failed call is not repeated. *)
Theorem one_request_per_run (inp : script_inputs) (w : world) :
  calls (script_run inp w)
  = calls w ++
    if reset_session inp then []
    else match chat_input inp with
         | Some [] => []
         | Some prompt =>
             match reply (agent (turn inp)) with
             | NoClient _ => []
             | _ =>
                 [{| agentId := AGENT_ID;
                     agentAliasId := AGENT_ALIAS_ID;
                     enableTrace := true;
                     sessionId :=
                       session_id (opened inp (session_state w));
                     inputText := prompt |}]
             end
         | None => []
         end.
Proof.
  destruct (reset_session inp) eqn:Hreset.
  - unfold script_run. rewrite (main_reset _ _ _ _ Hreset). cbn.
    now rewrite app_nil_r.
  - rewrite (script_run_calls _ _ Hreset).
    unfold run_calls, submitted, turn_calls.
    destruct (chat_input inp) as [[|c prompt]|]; reflexivity.
Qed.

(** ** Runs without reset *)





Lemma after_turn_keeps (env : turn_env) (prompt : str) (s : session) :
  session_id (after_turn env prompt s) = session_id s /\
  session_start_time (after_turn env prompt s) = session_start_time s /\
  (exists more,
      messages (after_turn env prompt s) = messages s ++ more /\
      (more = [] \/ List.length more = 2)) /\
  total_input_tokens s <= total_input_tokens (after_turn env prompt s) /\
  total_output_tokens s <= total_output_tokens (after_turn env prompt s).
Proof.
  unfold after_turn.
  destruct (reply (agent env)) as [message|events|e|e];
    [| destruct (located _) | |]; cbn;
    repeat split; try lia;
    try (exists []; rewrite app_nil_r; now auto).
  eexists. split; [reflexivity | right; reflexivity].
Qed.

(** X10: as long as "Reset Session" is not pressed, a run of the
    script keeps the session identifier and the session start time,
    whatever is submitted and whether or not the agent call fails. *)
Theorem session_identity_kept (inp : script_inputs) (w : world) :
  reset_session inp = false ->
  session_state w <> None ->
  option_map session_id (session_state (script_run inp w))
  = option_map session_id (session_state w) /\
  option_map session_start_time (session_state (script_run inp w))
  = option_map session_start_time (session_state w).
Proof.
  intros Hreset Hinit. rewrite script_run_session.
  rewrite (after_script_opened _ _ Hreset).
  destruct (session_state w) as [s|]; [|congruence]. cbn [opened option_map].
  destruct (submitted inp) as [prompt|]; [|auto].
  destruct (after_turn_keeps (turn inp) prompt s) as (Hid & Htime & _).
  now rewrite Hid, Htime.
Qed.

Lemma session_identity_kept_witness :
  reset_session (submit (lit "hello world") failing_turn) = false /\
  session_state after_hello <> None /\
  option_map session_id
    (session_state
       (script_run (submit (lit "hello world") failing_turn) after_hello))
  = option_map session_id (session_state after_hello) /\
  option_map session_start_time
    (session_state
       (script_run (submit (lit "hello world") failing_turn) after_hello))
  = option_map session_start_time (session_state after_hello).
Proof.
  assert (H1 : reset_session (submit (lit "hello world") failing_turn)
               = false) by reflexivity.
  assert (H2 : session_state after_hello <> None)
    by (vm_compute; discriminate).
  split; [exact H1 | split; [exact H2|]].
  exact (session_identity_kept _ after_hello H1 H2).
Defined.

(** X11: as long as "Reset Session" is not pressed, the transcript is
    append-only: a run adds nothing or exactly two messages after the
    existing ones, and the two token counters never decrease. *)
Theorem transcript_append_only (inp : script_inputs) (w : world) :
  reset_session inp = false ->
  (exists more,
      transcript (script_run inp w) = transcript w ++ more /\
      (more = [] \/ List.length more = 2)) /\
  match session_state w, session_state (script_run inp w) with
  | Some s, Some s' =>
      total_input_tokens s <= total_input_tokens s' /\
      total_output_tokens s <= total_output_tokens s'
  | _, _ => True
  end.
Proof.
  intros Hreset. unfold transcript. rewrite script_run_session.
  rewrite (after_script_opened _ _ Hreset).
  assert (Hopen : messages (opened inp (session_state w))
                  = match session_state w with
                    | Some s => messages s
                    | None => []
                    end)
    by (destruct (session_state w); reflexivity).
  destruct (submitted inp) as [prompt|].
  - destruct (after_turn_keeps (turn inp) prompt
                (opened inp (session_state w)))
      as (_ & _ & (more & Hm & Hlen) & Hin & Hout).
    rewrite Hm, Hopen. split; [eauto|].
    destruct (session_state w); [auto | exact I].
  - rewrite Hopen. split.
    + exists []. rewrite app_nil_r. auto.
    + destruct (session_state w); cbn; auto.
Qed.

Lemma transcript_append_only_witness :
  reset_session (submit (lit "hello world") answering_turn) = false /\
  (exists more,
      transcript (script_run (submit (lit "hello world") answering_turn)
                             after_hello)
      = transcript after_hello ++ more /\
      (more = [] \/ List.length more = 2)) /\
  match session_state after_hello,
        session_state (script_run (submit (lit "hello world") answering_turn)
                                  after_hello) with
  | Some s, Some s' =>
      total_input_tokens s <= total_input_tokens s' /\
      total_output_tokens s <= total_output_tokens s'
  | _, _ => True
  end.
Proof.
  assert (H1 : reset_session (submit (lit "hello world") answering_turn)
               = false) by reflexivity.
  split; [exact H1|].
  exact (transcript_append_only _ after_hello H1).
Defined.

(** ** Invariants of the reachable states *)

Lemma after_script_invariant (P : session -> Prop) (inp : script_inputs)
  (st : option session) :
  (forall uuid4 now, P (fresh_session uuid4 now)) ->
  (forall env prompt s, P s -> P (after_turn env prompt s)) ->
  match st with Some s => P s | None => True end ->
  P (after_script inp st).
Proof.
  intros Hfresh Hturn Hst. unfold after_script.
  assert (H0 : P (opened inp st)) by (destruct st; [exact Hst | apply Hfresh]).
  fold (opened inp st).
  destruct (reset_session inp); [apply Hfresh|].
  destruct (chat_input inp) as [prompt|]; [|exact H0].
  destruct (truthy prompt); [now apply Hturn | exact H0].
Qed.

Lemma reachable_invariant (P : session -> Prop) :
  (forall uuid4 now, P (fresh_session uuid4 now)) ->
  (forall env prompt s, P s -> P (after_turn env prompt s)) ->
  forall w, reachable w ->
            match session_state w with Some s => P s | None => True end.
Proof.
  intros Hfresh Hturn w Hw.
  induction Hw as [|inp w Hw IH]; [exact I|].
  rewrite script_run_session. now apply after_script_invariant.
Qed.

Lemma turn_times_app (msgs more : list Message.t) :
  turn_times (msgs ++ more)
  = fold_left
      (fun acc m =>
         match Metrics.execution_time (Message.metrics m) with
         | Some t => (acc + t)%float
         | None => acc
         end)
      more (turn_times msgs).
Proof. unfold turn_times. apply fold_left_app. Qed.

(** X12: in every reachable state the output-token counter is at
    least the sum of the tokens of the assistant turns, and the
    input-token counter at least the sum of the tokens of the user
    turns: an exchange charges the counters before its turns are
    stored, so one that ends early leaves them above the sums, never
    below. *)
Theorem reachable_counters_cover_turns (w : world) :
  reachable w ->
  match session_state w with
  | Some s =>
      turn_tokens assistant (messages s) <= total_output_tokens s /\
      turn_tokens user (messages s) <= total_input_tokens s
  | None => True
  end.
Proof.
  apply (reachable_invariant
           (fun s =>
              turn_tokens assistant (messages s) <= total_output_tokens s /\
              turn_tokens user (messages s) <= total_input_tokens s)).
  - intros. cbn. split; lia.
  - intros env prompt s (Hout & Hin). unfold after_turn.
    destruct (reply (agent env)) as [message|events|e|e];
      [| destruct (located _) | |];
      cbn [messages total_output_tokens total_input_tokens];
      rewrite ?turn_tokens_app; cbn; split; lia.
Qed.

Lemma reachable_counters_cover_turns_witness :
  reachable after_failure /\
  match session_state after_failure with
  | Some s =>
      turn_tokens assistant (messages s) <= total_output_tokens s /\
      turn_tokens user (messages s) <= total_input_tokens s
  | None => True
  end.
Proof.
  assert (Hw : reachable after_failure)
    by (apply reachable_run, reachable_start).
  split; [exact Hw|].
  exact (reachable_counters_cover_turns after_failure Hw).
Defined.

(** X13: in every reachable state the session variable [trace] is the
    trace stored with the last message of the transcript, which is an
    assistant turn; while the transcript is empty, [trace] and
    [citations] are empty.  A failed call does not touch them. *)
Theorem session_trace_is_last_turn (w : world) :
  reachable w ->
  match session_state w with
  | Some s =>
      match rev (messages s) with
      | [] => trace s = [] /\ citations s = []
      | m :: _ =>
          Message.role m = assistant /\
          Metrics.trace (Message.metrics m) = Some (trace s)
      end
  | None => True
  end.
Proof.
  apply (reachable_invariant
           (fun s =>
              match rev (messages s) with
              | [] => trace s = [] /\ citations s = []
              | m :: _ =>
                  Message.role m = assistant /\
                  Metrics.trace (Message.metrics m) = Some (trace s)
              end)).
  - intros. cbn. auto.
  - intros env prompt s Hs. unfold after_turn.
    destruct (reply (agent env)) as [message|events|e|e];
      [| destruct (located _) | |];
      cbn [messages trace citations]; try exact Hs.
    rewrite rev_app_distr. cbn. auto.
Qed.

Lemma session_trace_is_last_turn_witness :
  reachable after_hello /\
  match session_state after_hello with
  | Some s =>
      match rev (messages s) with
      | [] => trace s = [] /\ citations s = []
      | m :: _ =>
          Message.role m = assistant /\
          Metrics.trace (Message.metrics m) = Some (trace s)
      end
  | None => True
  end.
Proof.
  assert (Hw : reachable after_hello)
    by (apply reachable_run, reachable_start).
  split; [exact Hw|].
  exact (session_trace_is_last_turn after_hello Hw).
Defined.

(** ** What the sources section costs *)

Lemma sources_section_tokens (cit : citation) (cits : list citation) :
  1 <= count_tokens (sources_section (cit :: cits)) /\
  exists rest, sources_section (cit :: cits) = newline :: rest.
Proof.
  unfold sources_section, with_lines, sources_header.
  split; [|eexists; reflexivity].
  rewrite count_tokens_spec. unfold whitespace_separated_tokens.
  destruct (token_starts true
              ((newline :: newline :: lit "**Sources:**") ++
               List.concat (map (fun line => newline :: line)
                                (source_lines 1 (cit :: cits))))) eqn:E;
    [|lia].
  apply token_starts_blank in E.
  rewrite forallb_app in E. apply andb_true_iff in E.
  destruct E as [E _]. vm_compute in E. discriminate.
Qed.

(** X14: when a response has citations, each reference carrying its
    URI, the stored assistant content has the tokens of the response
    text plus those of the sources section, at least one more than the
    token count recorded (and charged) for the turn. *)
Theorem cited_content_exceeds_charge (ts : timestamps) (text : str)
  (cit : citation) (cits : list citation) (tr : trace_dict) (t : float)
  (prompt : str) (input_tokens : nat) (input_cost : float)
  (s : session) (scr : list ui_action) (cs : list request) :
  located (cit :: cits) = true ->
  exists u a,
    transcript
      (final (process_agent_response ts
                (Response.mk text (cit :: cits) tr t)
                prompt input_tokens input_cost (mkworld s scr cs)))
    = messages s ++ [u; a] /\
    Metrics.tokens (Message.metrics a) = count_tokens text /\
    count_tokens (Message.content a)
    = count_tokens text + count_tokens (sources_section (cit :: cits)) /\
    Metrics.tokens (Message.metrics a) < count_tokens (Message.content a).
Proof.
  intros Hloc.
  assert (Htext : with_citations (Response.mk text (cit :: cits) tr t)
                  = Some (text ++ sources_section (cit :: cits))).
  { rewrite with_citations_section. cbn [Response.citations].
    now rewrite Hloc. }
  rewrite (process_agent_response_run _ _ _ _ _ _ _ _ _ Htext).
  cbn [final transcript mkworld session_state messages].
  do 2 eexists. split; [reflexivity|].
  cbn [Message.metrics Message.content Metrics.tokens Response.output_text].
  destruct (sources_section_tokens cit cits) as [Hone [rest E]].
  assert (Hsum : count_tokens (text ++ sources_section (cit :: cits))
                 = count_tokens text
                   + count_tokens (sources_section (cit :: cits))).
  { rewrite E. rewrite !count_tokens_spec.
    unfold whitespace_separated_tokens.
    rewrite token_starts_join by reflexivity. reflexivity. }
  repeat split; [exact Hsum | lia].
Qed.

Lemma cited_content_exceeds_charge_witness :
  located sample_citations = true /\
  exists u a,
    transcript
      (final (process_agent_response sample_stamps
                (Response.mk (lit "hi there friend") sample_citations
                             [] 1.2%float)
                (lit "hello world") 2 0.0005%float
                (mkworld sample_session [] [])))
    = messages sample_session ++ [u; a] /\
    Metrics.tokens (Message.metrics a)
    = count_tokens (lit "hi there friend") /\
    count_tokens (Message.content a)
    = count_tokens (lit "hi there friend")
      + count_tokens (sources_section sample_citations) /\
    Metrics.tokens (Message.metrics a) < count_tokens (Message.content a).
Proof.
  assert (H : located sample_citations = true) by reflexivity.
  split; [exact H|].
  exact (cited_content_exceeds_charge sample_stamps (lit "hi there friend")
           _ _ [] 1.2%float (lit "hello world") 2 0.0005%float
           sample_session [] [] H).
Defined.

(** ** Whitespace-only input *)

(** X15: a submitted text that is not empty but consists of whitespace
    only passes the guard of the chat input: the turn processor runs
    and the agent is called with the text (one request, unless the
    client cannot be built).  The text counts for zero tokens, so the
    input-token counter and the user-token sum of the transcript keep
    their values. *)
Theorem blank_text_is_submitted (env : turn_env) (prompt : str)
  (s : session) (scr : list ui_action) (cs : list request) :
  truthy prompt = true ->
  forallb isspace prompt = true ->
  let after :=
    final (render_chat_interface (Some prompt) env (mkworld s scr cs)) in
  calls after
  = cs ++ match reply (agent env) with
          | NoClient _ => []
          | _ => [{| agentId := AGENT_ID;
                     agentAliasId := AGENT_ALIAS_ID;
                     enableTrace := true;
                     sessionId := session_id s;
                     inputText := prompt |}]
          end /\
  option_map total_input_tokens (session_state after)
  = Some (total_input_tokens s) /\
  turn_tokens user (transcript after) = turn_tokens user (messages s).
Proof.
  intros Htruthy Hblank after. subst after.
  assert (Hzero : count_tokens prompt = 0).
  { rewrite count_tokens_spec. now apply token_starts_blank. }
  rewrite render_chat_interface_run. cbv zeta. rewrite Htruthy.
  rewrite process_user_input_run. unfold transcript.
  assert (Hfinal : forall e w, final (ended e w) = w)
    by (intros [e|] w; reflexivity).
  rewrite Hfinal.
  cbn [mkworld session_state calls option_map].
  split; [unfold turn_calls; now destruct (reply (agent env))|].
  unfold after_turn. rewrite Hzero.
  destruct (reply (agent env)) as [message|events|e|e];
    [| destruct (located _) | |];
    cbn [total_input_tokens messages]; rewrite ?turn_tokens_app;
    cbn; rewrite ?Nat.add_0_r; auto.
Qed.

Lemma blank_text_is_submitted_witness :
  truthy blank_text = true /\
  forallb isspace blank_text = true /\
  calls (final (render_chat_interface (Some blank_text) answering_turn
                  (mkworld sample_session [] [])))
  = [] ++ match reply (agent answering_turn) with
          | NoClient _ => []
          | _ => [{| agentId := AGENT_ID;
                     agentAliasId := AGENT_ALIAS_ID;
                     enableTrace := true;
                     sessionId := session_id sample_session;
                     inputText := blank_text |}]
          end /\
  option_map total_input_tokens
    (session_state
       (final (render_chat_interface (Some blank_text) answering_turn
                 (mkworld sample_session [] []))))
  = Some (total_input_tokens sample_session) /\
  turn_tokens user
    (transcript
       (final (render_chat_interface (Some blank_text) answering_turn
                 (mkworld sample_session [] []))))
  = turn_tokens user (messages sample_session).
Proof.
  assert (H1 : truthy blank_text = true) by reflexivity.
  assert (H2 : forallb isspace blank_text = true) by reflexivity.
  split; [exact H1 | split; [exact H2|]].
  exact (blank_text_is_submitted answering_turn blank_text sample_session
           [] [] H1 H2).
Defined.

(** ** The analytics panels *)

(** X16: the two analytics panels only read: whatever the store holds
    and however they end, [render_prompt_analytics], and
    [render_session_analytics] while "Reset Session" is not pressed,
    leave the session variables unchanged and make no request. *)
Theorem analytics_panels_read_only :
  (forall (view : nat -> bool) (w : world),
      session_state (final (render_prompt_analytics view w))
      = session_state w /\
      calls (final (render_prompt_analytics view w)) = calls w) /\
  (forall (now clock : float) (uuid4 : str) (w : world),
      session_state (final (render_session_analytics now false uuid4 clock w))
      = session_state w /\
      calls (final (render_session_analytics now false uuid4 clock w))
      = calls w).
Proof.
  split.
  - intros view [[s|] scr cs].
    + unfold render_prompt_analytics, bind. cbn.
      apply render_pairs_frame.
    + split; reflexivity.
  - intros now clock uuid4 [[s|] scr cs].
    + fold_world. rewrite render_session_analytics_run. split; reflexivity.
    + split; reflexivity.
Qed.

Lemma render_pairs_page (view : nat -> bool) (msgs : list Message.t) :
  forall (number : nat) (w : world),
    pairs_answered msgs = true ->
    exists extra,
      render_pairs view number msgs w
      = Ok tt {| session_state := session_state w;
                 screen := screen w ++ extra;
                 calls := calls w |} /\
      expanders extra = Nat.div2 (List.length msgs).
Proof.
  induction msgs as [|m|u a rest IH] using pairs_ind; intros number w Hans.
  - exists []. cbn. now rewrite app_nil_r, world_eta.
  - exists []. cbn. now rewrite app_nil_r, world_eta.
  - cbn [pairs_answered] in Hans. apply andb_true_iff in Hans.
    destruct Hans as [Ha Hrest]. unfold answered in Ha.
    cbn [render_pairs]. unfold bind. cbn.
    destruct (Metrics.execution_time (Message.metrics a)) as [t|];
      [|discriminate].
    destruct (Metrics.trace (Message.metrics a)) as [tr|]; [|discriminate].
    cbn.
    destruct (view number); cbn;
      match goal with |- context [render_pairs view ?n rest ?w0] =>
        destruct (IH n w0 Hrest) as (extra & E & Hcount); rewrite E
      end;
      cbn [session_state screen calls];
      eexists; rewrite <- !app_assoc;
      (split; [cbn; reflexivity|]);
      unfold expanders in *; cbn; rewrite ?filter_app; cbn;
      now rewrite Hcount.
Qed.

(** X17: on a transcript whose pairs are complete the prompt analytics
    panel ends normally, changes nothing but the page, and draws one
    expander per pair of messages. *)
Theorem one_expander_per_pair (view : nat -> bool) (s : session)
  (scr : list ui_action) (cs : list request) :
  pairs_answered (messages s) = true ->
  exists extra,
    render_prompt_analytics view (mkworld s scr cs)
    = Ok tt (mkworld s (scr ++ extra) cs) /\
    expanders extra = Nat.div2 (List.length (messages s)).
Proof.
  intros Hans. unfold render_prompt_analytics, bind. cbn.
  destruct (render_pairs_page view (messages s) 1 (mkworld s scr cs) Hans)
    as (extra & E & Hcount).
  exists extra. split; [exact E | exact Hcount].
Qed.

Lemma one_expander_per_pair_witness :
  pairs_answered (messages hello_session) = true /\
  exists extra,
    render_prompt_analytics (fun _ => true) (mkworld hello_session [] [])
    = Ok tt (mkworld hello_session ([] ++ extra) []) /\
    expanders extra = Nat.div2 (List.length (messages hello_session)).
Proof.
  assert (H : pairs_answered (messages hello_session) = true)
    by reflexivity.
  split; [exact H|].
  exact (one_expander_per_pair (fun _ => true) hello_session [] [] H).
Defined.

(** X18: the loop of the prompt analytics panel skips a last message
    that has no partner: on a transcript of even length followed by
    one more message it does exactly what it does without that
    message. *)
Theorem unpaired_message_skipped (view : nat -> bool)
  (msgs : list Message.t) (m : Message.t) :
  Nat.even (List.length msgs) = true ->
  forall (number : nat) (w : world),
    render_pairs view number (msgs ++ [m]) w
    = render_pairs view number msgs w.
Proof.
  induction msgs as [|m0|u a rest IH] using pairs_ind; intros Heven number w.
  - reflexivity.
  - discriminate.
  - cbn [app render_pairs]. unfold bind. cbn.
    destruct (Metrics.execution_time (Message.metrics a)); [|reflexivity].
    cbn. destruct (view number); cbn.
    + destruct (Metrics.trace (Message.metrics a)); [|reflexivity].
      cbn. now apply IH.
    + now apply IH.
Qed.

Lemma unpaired_message_skipped_witness :
  Nat.even (List.length (messages hello_session)) = true /\
  forall (number : nat) (w : world),
    render_pairs (fun _ => false) number
      (messages hello_session
       ++ [Message.mk user blank_text
             (Metrics.mk 0 0%float (lit "12:00:02") None None)]) w
    = render_pairs (fun _ => false) number (messages hello_session) w.
Proof.
  assert (H : Nat.even (List.length (messages hello_session)) = true)
    by reflexivity.
  split; [exact H|].
  exact (unpaired_message_skipped (fun _ => false) (messages hello_session)
           _ H).
Defined.

(** ** What a completed exchange leaves in the store *)

(** X19: after an exchange whose call completed, each reference
    carrying its URI, the session variable [citations] holds the
    citations of that response only, in arrival order: those of
    earlier exchanges are replaced, also when the response has none.
    The variable [trace] holds, under each trace type, the records of
    that response. *)
Theorem completed_turn_replaces_citations (prompt : str)
  (events : list event) (t0 t1 : float) (ts : timestamps)
  (s : session) (scr : list ui_action) (cs : list request) :
  located (List.concat (map event_citations events)) = true ->
  let env := {| agent := {| start_clock := t0;
                            reply := Completed events;
                            end_clock := t1 |};
                stamps := ts |} in
  let after := final (process_user_input env prompt (mkworld s scr cs)) in
  option_map citations (session_state after)
  = Some (List.concat (map event_citations events)) /\
  forall t,
    option_map (fun s' => trace_get t (trace s')) (session_state after)
    = Some (List.concat (map (event_records t) events)).
Proof.
  intros Hloc env after. subst env after.
  assert (Hc : snd (fst (read_completion events))
               = List.concat (map event_citations events))
    by exact (proj2 (absorb_events_text events [] [] [])).
  assert (Hget : forall t,
             trace_get t (snd (read_completion events))
             = List.concat (map (event_records t) events))
    by exact (proj1 (absorb_events_trace events [] [] [])).
  assert (Hloc' : located
                    (Response.citations
                       (received {| start_clock := t0;
                                    reply := Completed events;
                                    end_clock := t1 |} events)) = true).
  { unfold received.
    destruct (read_completion events) as [[o c] tr].
    cbn in Hc |- *. now rewrite Hc. }
  rewrite (process_user_input_completed _ _ events) by
    (reflexivity || exact Hloc').
  cbn [final mkworld session_state option_map citations trace].
  unfold received. cbn [agent].
  destruct (read_completion events) as [[o c] tr].
  cbn in Hc, Hget |- *. subst c. split; [reflexivity|].
  intros t. now rewrite Hget.
Qed.

Lemma completed_turn_replaces_citations_witness :
  located (List.concat
             (map event_citations
                  [cited_event (lit "hi there friend") sample_citations]))
  = true /\
  option_map citations
    (session_state
       (final (process_user_input
                 {| agent := {| start_clock := 0%float;
                                reply := Completed
                                           [cited_event
                                              (lit "hi there friend")
                                              sample_citations];
                                end_clock := 1.2%float |};
                    stamps := sample_stamps |}
                 (lit "hello world") (mkworld hello_session [] []))))
  = Some (List.concat
            (map event_citations
                 [cited_event (lit "hi there friend") sample_citations])) /\
  forall t,
    option_map (fun s' => trace_get t (trace s'))
      (session_state
         (final (process_user_input
                   {| agent := {| start_clock := 0%float;
                                  reply := Completed
                                             [cited_event
                                                (lit "hi there friend")
                                                sample_citations];
                                  end_clock := 1.2%float |};
                      stamps := sample_stamps |}
                   (lit "hello world") (mkworld hello_session [] []))))
    = Some (List.concat
              (map (event_records t)
                   [cited_event (lit "hi there friend") sample_citations])).
Proof.
  assert (H : located
                (List.concat
                   (map event_citations
                        [cited_event (lit "hi there friend")
                           sample_citations])) = true) by reflexivity.
  split; [exact H|].
  exact (completed_turn_replaces_citations (lit "hello world")
           [cited_event (lit "hi there friend") sample_citations]
           0%float 1.2%float sample_stamps hello_session [] [] H).
Defined.

(** ** Exchanges that end with an exception *)

(** X20: when the call completes but a reference of the response has
    no S3 URI, [process_user_input] ends with [KeyError] after the
    counters have been charged: input and output tokens, cost and
    processing time have grown, while no turn is recorded, the answer
    is not shown, and the session variables [citations] and [trace]
    keep their values. *)
Theorem unlocated_reference_charged (prompt : str) (events : list event)
  (t0 t1 : float) (ts : timestamps)
  (s : session) (scr : list ui_action) (cs : list request) :
  located (List.concat (map event_citations events)) = false ->
  let env := {| agent := {| start_clock := t0;
                            reply := Completed events;
                            end_clock := t1 |};
                stamps := ts |} in
  let text := List.concat (map event_text events) in
  process_user_input env prompt (mkworld s scr cs)
  = Raise KeyError
      (mkworld
         {| session_id := session_id s;
            messages := messages s;
            citations := citations s;
            trace := trace s;
            total_cost :=
              (total_cost s
               + float_of_nat (count_tokens prompt) * COST_PER_INPUT_TOKEN
               + float_of_nat (count_tokens text) * COST_PER_OUTPUT_TOKEN)
              %float;
            total_input_tokens := total_input_tokens s + count_tokens prompt;
            total_output_tokens := total_output_tokens s + count_tokens text;
            session_start_time := session_start_time s;
            total_prompt_time := (total_prompt_time s + (t1 - t0))%float |}
         (scr ++ turn_opening prompt)
         (cs ++ [{| agentId := AGENT_ID;
                    agentAliasId := AGENT_ALIAS_ID;
                    enableTrace := true;
                    sessionId := session_id s;
                    inputText := prompt |}])).
Proof.
  intros Hloc env text. subst env text.
  assert (Ho : fst (fst (read_completion events))
               = List.concat (map event_text events))
    by exact (proj1 (absorb_events_text events [] [] [])).
  assert (Hc : snd (fst (read_completion events))
               = List.concat (map event_citations events))
    by exact (proj2 (absorb_events_text events [] [] [])).
  rewrite process_user_input_run.
  unfold turn_exception, after_turn, turn_screen, turn_calls, received.
  cbn [agent reply start_clock end_clock stamps].
  rewrite with_citations_section.
  destruct (read_completion events) as [[o c] tr].
  cbn in Ho, Hc. subst o c.
  cbn [Response.citations Response.output_text Response.execution_time].
  rewrite Hloc. cbn [ended]. now rewrite app_nil_r.
Qed.

Lemma unlocated_reference_charged_witness :
  located
    (List.concat
       (map event_citations
            [cited_event (lit "hi there friend")
               [{| retrievedReferences := [web_reference] |}]]))
  = false /\
  process_user_input
    {| agent := {| start_clock := 0%float;
                   reply := Completed
                              [cited_event (lit "hi there friend")
                                 [{| retrievedReferences :=
                                       [web_reference] |}]];
                   end_clock := 1.2%float |};
       stamps := sample_stamps |}
    (lit "hello world") (mkworld sample_session [] [])
  = Raise KeyError
      (mkworld
         {| session_id := session_id sample_session;
            messages := messages sample_session;
            citations := citations sample_session;
            trace := trace sample_session;
            total_cost :=
              (total_cost sample_session
               + float_of_nat (count_tokens (lit "hello world"))
                 * COST_PER_INPUT_TOKEN
               + float_of_nat
                   (count_tokens
                      (List.concat
                         (map event_text
                              [cited_event (lit "hi there friend")
                                 [{| retrievedReferences :=
                                       [web_reference] |}]])))
                 * COST_PER_OUTPUT_TOKEN)%float;
            total_input_tokens :=
              total_input_tokens sample_session
              + count_tokens (lit "hello world");
            total_output_tokens :=
              total_output_tokens sample_session
              + count_tokens
                  (List.concat
                     (map event_text
                          [cited_event (lit "hi there friend")
                             [{| retrievedReferences :=
                                   [web_reference] |}]]));
            session_start_time := session_start_time sample_session;
            total_prompt_time :=
              (total_prompt_time sample_session + (1.2 - 0))%float |}
         ([] ++ turn_opening (lit "hello world"))
         ([] ++ [{| agentId := AGENT_ID;
                    agentAliasId := AGENT_ALIAS_ID;
                    enableTrace := true;
                    sessionId := session_id sample_session;
                    inputText := lit "hello world" |}])).
Proof.
  assert (H : located
                (List.concat
                   (map event_citations
                        [cited_event (lit "hi there friend")
                           [{| retrievedReferences := [web_reference] |}]]))
              = false) by reflexivity.
  split; [exact H|].
  exact (unlocated_reference_charged (lit "hello world")
           [cited_event (lit "hi there friend")
              [{| retrievedReferences := [web_reference] |}]]
           0%float 1.2%float sample_stamps sample_session [] [] H).
Defined.

(** X21: an exception of the agent client that is not a [ClientError]
    is not caught: [process_user_input] ends with it, nothing is shown
    beyond "Thinking...", and the utterance stays charged to the
    input-token and cost counters while every other session variable
    keeps its value.  When the client could not be built no request
    was made; when the call or the reading of the stream raised, one
    was. *)
Theorem client_exception_not_caught (t0 t1 : float) (ts : timestamps)
  (exception prompt : str)
  (s : session) (scr : list ui_action) (cs : list request) :
  let charged :=
    {| session_id := session_id s;
       messages := messages s;
       citations := citations s;
       trace := trace s;
       total_cost :=
         (total_cost s
          + float_of_nat (count_tokens prompt) * COST_PER_INPUT_TOKEN)%float;
       total_input_tokens := total_input_tokens s + count_tokens prompt;
       total_output_tokens := total_output_tokens s;
       session_start_time := session_start_time s;
       total_prompt_time := total_prompt_time s |} in
  process_user_input
    {| agent := {| start_clock := t0; reply := NoClient exception;
                   end_clock := t1 |};
       stamps := ts |} prompt (mkworld s scr cs)
  = Raise (Uncaught exception)
      (mkworld charged (scr ++ turn_opening prompt) cs) /\
  process_user_input
    {| agent := {| start_clock := t0; reply := Aborted exception;
                   end_clock := t1 |};
       stamps := ts |} prompt (mkworld s scr cs)
  = Raise (Uncaught exception)
      (mkworld charged (scr ++ turn_opening prompt)
         (cs ++ [{| agentId := AGENT_ID;
                    agentAliasId := AGENT_ALIAS_ID;
                    enableTrace := true;
                    sessionId := session_id s;
                    inputText := prompt |}])).
Proof.
  cbv zeta. rewrite !process_user_input_run.
  unfold turn_exception, after_turn, turn_screen, turn_calls.
  cbn. rewrite !app_nil_r. split; reflexivity.
Qed.

(** A first exchange whose answer cites a web page: the run ends with
    [KeyError], the store has three output tokens and 1.2 seconds of
    processing time charged, and the transcript is empty. *)
Example web_citation_run :
  main (submit (lit "hello world") web_citing_turn) initial_world
  = Raise KeyError
      (script_run (submit (lit "hello world") web_citing_turn)
                  initial_world) /\
  transcript (script_run (submit (lit "hello world") web_citing_turn)
                         initial_world) = [] /\
  option_map total_output_tokens
    (session_state (script_run (submit (lit "hello world") web_citing_turn)
                               initial_world)) = Some 3 /\
  option_map total_prompt_time
    (session_state (script_run (submit (lit "hello world") web_citing_turn)
                               initial_world)) = Some 1.2%float.
Proof. vm_compute. repeat split; reflexivity. Qed.

(** A first exchange for which the client cannot be built: the run
    ends with the exception and no request was made. *)
Example clientless_run :
  main (submit (lit "hello world") clientless_turn) initial_world
  = Raise (Uncaught (lit "NoRegionError"))
      (script_run (submit (lit "hello world") clientless_turn)
                  initial_world) /\
  calls (script_run (submit (lit "hello world") clientless_turn)
                    initial_world) = [].
Proof. vm_compute. split; reflexivity. Qed.
